(** * SmartAgri sensor firmware (STM32F072RB, bare metal)

    A shallow embedding of [stm32_src/smartagri.c] and the properties its
    specification states about it.

    The firmware talks to the chip only through memory-mapped registers.
    Every volatile access of the C code is one [Load] or [Store] of the
    model.  Registers that the peripherals drive (status flags, the ADC data
    register, the GPIO input register) are answered by a [device] oracle
    indexed by the number of register accesses made so far; the other
    registers are latches that read back what was last written.  Characters
    written to the transmit data register are collected in the [tx] log.

    C [int] is 32 bits wide on this target.  Values are represented in [Z];
    arithmetic whose mathematical result leaves the [int] range is undefined
    behaviour in C and is reported as a [Fault].  Shifts and conversions to
    [unsigned int] wrap, as the compiler for this target defines them. *)

From Stdlib Require Import ZArith List String Ascii Bool Lia.
From Stdlib Require Import DecimalString DecimalZ.
Import ListNotations.

Local Open Scope Z_scope.

(* [String] also exports a [length]; lists are meant throughout. *)
Local Abbreviation length := List.length.

(** ** Machine integers *)

Definition INT_MIN : Z := -2147483648.
Definition INT_MAX : Z := 2147483647.

Definition in_int (z : Z) : Prop := INT_MIN <= z <= INT_MAX.
Definition in_intb (z : Z) : bool := (INT_MIN <=? z) && (z <=? INT_MAX).

(** Conversion to [unsigned int]: reduction modulo 2^32. *)
Definition to_unsigned (z : Z) : Z := z mod 2 ^ 32.

(** Conversion of an [unsigned int] to [int] (wraps on this target). *)
Definition to_int (u : Z) : Z :=
  let w := to_unsigned u in if w <? 2 ^ 31 then w else w - 2 ^ 32.

(** Conversion of an [int] to [char], and the code of a [char]. *)
Definition to_char (z : Z) : ascii := ascii_of_N (Z.to_N (z mod 256)).
Definition char_code (c : ascii) : Z := Z.of_N (N_of_ascii c).

(** A C scalar used as a condition: non-zero is true. *)
Definition truthy (z : Z) : bool := negb (z =? 0).

(** ** Registers *)

Inductive reg : Type :=
  | RCC_CR | RCC_AHBENR | RCC_APB2ENR | RCC_APB1ENR
  | GPIOA_MODER | GPIOA_ODR | GPIOA_IDR | GPIOA_PUPDR | GPIOA_AFR0 | GPIOA_AFR1
  | GPIOB_MODER | GPIOB_ODR
  | ADC_ISR | ADC_CR | ADC_CHSELR | ADC_DR
  | USART2_CR1 | USART2_BRR | USART2_ISR | USART2_TDR.

Definition reg_eq_dec (a b : reg) : {a = b} + {a <> b}.
Proof. decide equality. Defined.

(** Registers whose read value is produced by the peripheral rather than by
    the last write of the program. *)
Definition driven (r : reg) : bool :=
  match r with
  | GPIOA_IDR | ADC_ISR | ADC_CR | ADC_DR | USART2_ISR => true
  | _ => false
  end.

(** ** Hardware state *)

Record hw : Type := mk_hw {
  regs : reg -> Z;        (* value last written to each register *)
  tx : list ascii;        (* characters handed to the transmitter, oldest first *)
  clock : nat             (* number of register accesses so far *)
}.

Definition upd (f : reg -> Z) (r : reg) (v : Z) : reg -> Z :=
  fun r' => if reg_eq_dec r r' then v else f r'.

(** ** Outcomes and the execution monad *)

Inductive fault : Type :=
  | SignedOverflow     (* int arithmetic left the int range *)
  | DivisionByZero
  | OutOfBounds        (* array index outside the array *)
  | Uninitialised.     (* read of an array cell never written *)

Inductive outcome (A : Type) : Type :=
  | Done (a : A) (s : hw)
  | Fault (f : fault) (s : hw)
  | OutOfFuel.

Arguments Done {A} a s.
Arguments Fault {A} f s.
Arguments OutOfFuel {A}.

Definition M (A : Type) : Type := hw -> outcome A.

Definition ret {A} (a : A) : M A := fun s => Done a s.

Definition bind {A B} (m : M A) (f : A -> M B) : M B :=
  fun s =>
    match m s with
    | Done a s' => f a s'
    | Fault e s' => Fault e s'
    | OutOfFuel => OutOfFuel
    end.

Definition raise {A} (e : fault) : M A := fun s => Fault e s.

Notation "x <- m ;; k" := (bind m (fun x => k))
  (at level 61, m at next level, right associativity).
Notation "m ;; k" := (bind m (fun _ => k))
  (at level 61, right associativity).
Notation "' pat <- m ;; k" := (bind m (fun x => match x with pat => k end))
  (at level 61, pat pattern, m at next level, right associativity).

(** [while fuel cond body l]: the C loop [while (cond) body] over the local
    variables [l].  [fuel] bounds the number of condition evaluations the
    model follows; running out is reported as [OutOfFuel], never as a
    result. *)
Fixpoint while {L} (fuel : nat) (cond : L -> M bool) (body : L -> M L)
    (l : L) : M L :=
  match fuel with
  | O => fun _ => OutOfFuel
  | S fuel' =>
      b <- cond l ;;
      if b then l' <- body l ;; while fuel' cond body l' else ret l
  end.

(** Checked [int] arithmetic. *)
Definition checked (z : Z) : M Z :=
  if in_intb z then ret z else raise SignedOverflow.

Definition int_neg (a : Z) : M Z := checked (- a).
Definition int_add (a b : Z) : M Z := checked (a + b).
Definition int_sub (a b : Z) : M Z := checked (a - b).
Definition int_mul (a b : Z) : M Z := checked (a * b).
Definition int_div (a b : Z) : M Z :=
  if b =? 0 then raise DivisionByZero else checked (Z.quot a b).
Definition int_rem (a b : Z) : M Z :=
  if b =? 0 then raise DivisionByZero
  else _ <- checked (Z.quot a b) ;; ret (Z.rem a b).

(** [for (int i = lo; i < hi; i++) body], for a body that leaves [i] alone. *)
Fixpoint for_count (n : nat) (i : Z) (body : Z -> M unit) : M unit :=
  match n with
  | O => ret tt
  | S n' => body i ;; i' <- int_add i 1 ;; for_count n' i' body
  end.

Definition for_lt (lo hi : Z) (body : Z -> M unit) : M unit :=
  for_count (Z.to_nat (hi - lo)) lo body.

(** ** Local character arrays *)

Definition cells : Type := list (option ascii).

Definition uninit (n : nat) : cells := repeat None n.

Fixpoint set_cell (b : cells) (n : nat) (c : ascii) : cells :=
  match b, n with
  | [], _ => []
  | _ :: b', O => Some c :: b'
  | x :: b', S n' => x :: set_cell b' n' c
  end.

Definition in_bounds (b : cells) (i : Z) : bool :=
  (0 <=? i) && (i <? Z.of_nat (length b)).

Definition buf_store (b : cells) (i : Z) (c : ascii) : M cells :=
  if in_bounds b i then ret (set_cell b (Z.to_nat i) c)
  else raise OutOfBounds.

Definition buf_load (b : cells) (i : Z) : M ascii :=
  if in_bounds b i then
    match nth (Z.to_nat i) b None with
    | Some c => ret c
    | None => raise Uninitialised
    end
  else raise OutOfBounds.

(** ** String literals of the source *)

Definition dquote : ascii := "034"%char.
Definition CR : ascii := "013"%char.
Definition LF : ascii := "010"%char.
Definition crlf : string := String CR (String LF EmptyString).

Definition quoted (s : string) : string :=
  String dquote (s ++ String dquote EmptyString)%string.

Definition banner : string := ("STM32F072RB SmartAgri Started" ++ crlf)%string.

Section Firmware.

(** What the peripherals present on a read of a driven register, as a
    function of the number of register accesses made before it. *)
Variable device : nat -> reg -> Z.

(** Bound on the iterations of any one [while] loop followed by the model. *)
Variable fuel : nat.

(** *** Register access *)

Definition Load (r : reg) : M Z :=
  fun s =>
    Done (if driven r then to_unsigned (device (clock s) r) else regs s r)
         (mk_hw (regs s) (tx s) (S (clock s))).

Definition Store (r : reg) (v : Z) : M unit :=
  fun s =>
    Done tt
         (mk_hw (upd (regs s) r (to_unsigned v))
                (if reg_eq_dec r USART2_TDR then tx s ++ [to_char v] else tx s)
                (S (clock s))).

(** [R |= v] and [R &= v]. *)
Definition set_bits (r : reg) (v : Z) : M unit :=
  old <- Load r ;; Store r (Z.lor old (to_unsigned v)).

Definition mask_bits (r : reg) (v : Z) : M unit :=
  old <- Load r ;; Store r (Z.land old (to_unsigned v)).

(** Bit [b] of the driven register [r] reads as [v] on some access within
    the polling budget, counted from any point of the run. *)
Definition responds (r : reg) (b : Z) (v : bool) : Prop :=
  forall t, exists d, (d < fuel)%nat /\ Z.testbit (device (t + d) r) b = v.

(** [while (cond);] with an empty body. *)
Definition spin (cond : M bool) : M unit :=
  while fuel (fun _ => cond) (fun _ => ret tt) tt.

(** *** delay_ms *)

Definition delay_ms (ms : Z) : M unit :=
  for_lt 0 ms (fun _ => for_lt 0 8000 (fun _ => ret tt)).

(** *** uart_putchar, uart_puts *)

Definition uart_putchar (c : ascii) : M unit :=
  spin (isr <- Load USART2_ISR ;;
        ret (negb (truthy (Z.land isr (Z.shiftl 1 7))))) ;;
  Store USART2_TDR (char_code c).

Fixpoint uart_puts (s : string) : M unit :=
  match s with
  | EmptyString => ret tt
  | String c s' =>
      if truthy (char_code c) then uart_putchar c ;; uart_puts s'
      else ret tt
  end.

(** *** uart_putnum *)

(** [buf[i++] = '0' + (num % 10); num /= 10;] *)
Definition fill_step : Z * Z * cells -> M (Z * Z * cells) :=
  fun '(num, i, buf) =>
    d <- int_rem num 10 ;;
    c <- int_add (char_code "0"%char) d ;;
    buf' <- buf_store buf i (to_char c) ;;
    i' <- int_add i 1 ;;
    num' <- int_div num 10 ;;
    ret (num', i', buf').

(** [while(num > 0) { ... }] *)
Definition putnum_fill : Z * Z * cells -> M (Z * Z * cells) :=
  while fuel (fun '(num, _, _) => ret (0 <? num)) fill_step.

(** [uart_putchar(buf[--i])] *)
Definition drain_step (buf : cells) : Z -> M Z :=
  fun i =>
    i' <- int_sub i 1 ;;
    c <- buf_load buf i' ;;
    uart_putchar c ;;
    ret i'.

(** [while(i > 0) ...] *)
Definition putnum_drain (buf : cells) : Z -> M Z :=
  while fuel (fun i => ret (0 <? i)) (drain_step buf).

Definition uart_putnum (num : Z) : M unit :=
  let buf := uninit 12 in
  let i := 0 in
  if num =? 0 then uart_putchar "0"%char
  else
    num <- (if num <? 0 then uart_putchar "-"%char ;; int_neg num
            else ret num) ;;
    '(_, i, buf) <- putnum_fill (num, i, buf) ;;
    _ <- putnum_drain buf i ;;
    ret tt.

(** *** read_adc *)

Definition read_adc (channel : Z) : M Z :=
  Store ADC_CHSELR (Z.shiftl 1 channel) ;;
  set_bits ADC_CR (Z.shiftl 1 2) ;;
  spin (isr <- Load ADC_ISR ;;
        ret (negb (truthy (Z.land isr (Z.shiftl 1 2))))) ;;
  dr <- Load ADC_DR ;;
  ret (to_int dr).

(** *** Initialisation *)

Definition init_clocks : M unit :=
  set_bits RCC_AHBENR (Z.lor (Z.shiftl 1 17) (Z.shiftl 1 18)) ;;
  set_bits RCC_APB2ENR (Z.shiftl 1 9) ;;
  set_bits RCC_APB1ENR (Z.shiftl 1 17).

Definition init_gpio : M unit :=
  set_bits GPIOA_MODER (Z.lor (Z.shiftl 3 0) (Z.shiftl 3 2)) ;;
  mask_bits GPIOA_MODER (Z.lnot (Z.lor (Z.shiftl 3 4) (Z.shiftl 3 6))) ;;
  set_bits GPIOA_MODER (Z.lor (Z.shiftl 2 4) (Z.shiftl 2 6)) ;;
  set_bits GPIOA_AFR0 (Z.lor (Z.shiftl 1 8) (Z.shiftl 1 12)) ;;
  mask_bits GPIOA_MODER (Z.lnot (Z.shiftl 3 10)) ;;
  set_bits GPIOA_MODER (Z.shiftl 1 10) ;;
  mask_bits GPIOA_MODER (Z.lnot (Z.shiftl 3 8)) ;;
  set_bits GPIOA_PUPDR (Z.shiftl 1 8).

Definition init_usart : M unit :=
  Store USART2_BRR 69 ;;
  set_bits USART2_CR1 (Z.lor (Z.lor (Z.shiftl 1 0) (Z.shiftl 1 3)) (Z.shiftl 1 2)).

Definition init_adc : M unit :=
  set_bits ADC_CR (Z.shiftl 1 31) ;;
  spin (cr <- Load ADC_CR ;; ret (truthy (Z.land cr (to_unsigned (Z.shiftl 1 31))))) ;;
  set_bits ADC_CR (Z.shiftl 1 0) ;;
  spin (isr <- Load ADC_ISR ;;
        ret (negb (truthy (Z.land isr (Z.shiftl 1 0))))).

(** *** send_json *)

Definition send_json (moisture temp ph rain water_level : Z) : M unit :=
  uart_puts ("{" ++ quoted "moisture" ++ ":")%string ;;
  uart_putnum moisture ;;
  uart_puts ("," ++ quoted "temp" ++ ":")%string ;;
  uart_putnum temp ;;
  uart_puts ("," ++ quoted "ph" ++ ":")%string ;;
  uart_putnum ph ;;
  uart_puts ("," ++ quoted "rain" ++ ":")%string ;;
  uart_putnum rain ;;
  uart_puts ("," ++ quoted "water_level" ++ ":")%string ;;
  uart_putnum water_level ;;
  uart_puts ("}" ++ crlf)%string.

(** *** main *)

(** [(GPIOA_IDR & (1 << 4)) ? 0 : 1] *)
Definition read_rain : M Z :=
  idr <- Load GPIOA_IDR ;;
  ret (if truthy (Z.land idr (Z.shiftl 1 4)) then 0 else 1).

(** [(moisture_raw * 100) / 4095] *)
Definition moisture_percent (moisture_raw : Z) : M Z :=
  scaled <- int_mul moisture_raw 100 ;;
  int_div scaled 4095.

(** [GPIOA_ODR ^= (1 << 5)] *)
Definition toggle_led : M unit :=
  odr <- Load GPIOA_ODR ;; Store GPIOA_ODR (Z.lxor odr (Z.shiftl 1 5)).

(** One pass through the body of [while(1)]. *)
Definition loop_body : M unit :=
  moisture_raw <- read_adc 0 ;;
  ph_raw <- read_adc 1 ;;
  rain <- read_rain ;;
  moisture <- moisture_percent moisture_raw ;;
  let temp := 25 in
  let ph := 7 in
  let water_level := 75 in
  send_json moisture temp ph rain water_level ;;
  toggle_led ;;
  delay_ms 500.

Fixpoint iterations (k : nat) : M unit :=
  match k with
  | O => ret tt
  | S k' => loop_body ;; iterations k'
  end.

Definition startup : M unit :=
  init_clocks ;;
  init_gpio ;;
  init_usart ;;
  init_adc ;;
  delay_ms 1000.

(** [main], followed through [k] completed iterations of [while(1)]. *)
Definition main (k : nat) : M unit :=
  startup ;;
  uart_puts banner ;;
  iterations k.

End Firmware.

(** ** Sample peripherals *)

(** A board whose flags are ready on every read. *)
Definition prompt_device (adc idr : Z) : nat -> reg -> Z :=
  fun _ r =>
    match r with
    | USART2_ISR => 192
    | ADC_ISR => 5
    | ADC_CR => 1
    | ADC_DR => adc
    | GPIOA_IDR => idr
    | _ => 0
    end.

(** A board whose flags are ready on every third register access only. *)
Definition slow_device (adc idr : Z) : nat -> reg -> Z :=
  fun t r =>
    if (t mod 3 =? 2)%nat then prompt_device adc idr t r
    else
      match r with
      | ADC_CR => 2147483648
      | ADC_DR => adc
      | GPIOA_IDR => idr
      | _ => 0
      end.

(** A board whose transmitter is ready for the first six register accesses
    and never again. *)
Definition fading_device : nat -> reg -> Z :=
  fun t r =>
    match r with
    | USART2_ISR => if (t <? 6)%nat then 192 else 0
    | _ => 0
    end.

(** A board on which every register reads as zero: no flag is ever raised. *)
Definition dead_device : nat -> reg -> Z := fun _ _ => 0.

(** A board whose ADC never leaves calibration: ADCAL reads as set for ever. *)
Definition calibrating_device : nat -> reg -> Z :=
  fun _ r => match r with ADC_CR => 2147483648 | _ => 0 end.

Definition reset_state : hw := mk_hw (fun _ => 0) [] 0.

(** The assumptions on the board under which the firmware is followed: every
    flag it polls is raised (or cleared) within [fuel] accesses, the ADC
    delivers 12-bit samples, and [fuel] covers the digit loops. *)
Definition responsive_board (device : nat -> reg -> Z) (fuel : nat) : Prop :=
  responds device fuel USART2_ISR 7 true /\
  responds device fuel ADC_ISR 2 true /\
  responds device fuel ADC_ISR 0 true /\
  responds device fuel ADC_CR 31 false /\
  (forall t, 0 <= device t ADC_DR <= 4095) /\
  (12 <= fuel)%nat.

Definition transmitted {A} (o : outcome A) : option string :=
  match o with
  | Done _ s => Some (string_of_list_ascii (tx s))
  | Fault _ s => Some (string_of_list_ascii (tx s))
  | OutOfFuel => None
  end.


(** ** Reference decimal text (not firmware code)

    The decimal rendering and parsing against which the firmware's output is
    judged are those of the standard library's decimal numbers. *)

Definition decimal (n : Z) : string := NilZero.string_of_int (Z.to_int n).

Definition parse_decimal (s : string) : option Z :=
  option_map Z.of_int (NilZero.int_of_string s).

(** The digits of [n], least significant first, produced by at most [k]
    divisions by ten. *)
Fixpoint lsd (k : nat) (n : Z) : list Z :=
  match k with
  | O => []
  | S k' => if 0 <? n then Z.rem n 10 :: lsd k' (Z.quot n 10) else []
  end.

Definition digit_char (d : Z) : ascii := to_char (char_code "0"%char + d).

(** A digit value put in front of a decimal numeral of the standard library. *)
Definition digit_uint (d : Z) (u : Decimal.uint) : Decimal.uint :=
  match d with
  | 0 => Decimal.D0 u | 1 => Decimal.D1 u | 2 => Decimal.D2 u
  | 3 => Decimal.D3 u | 4 => Decimal.D4 u | 5 => Decimal.D5 u
  | 6 => Decimal.D6 u | 7 => Decimal.D7 u | 8 => Decimal.D8 u
  | _ => Decimal.D9 u
  end.

Definition lu_of (ds : list Z) : Decimal.uint := fold_right digit_uint Decimal.Nil ds.

(** What [uart_putnum] is shown to transmit for an [int] above [INT_MIN]. *)
Definition putnum_text (n : Z) : list ascii :=
  if n =? 0 then ["0"%char]
  else if n <? 0 then "-"%char :: rev (map digit_char (lsd 10 (- n)))
  else rev (map digit_char (lsd 10 n)).

(** The record line of the serial protocol, with every field in decimal. *)
Definition record_text (moisture temp ph rain water_level : Z) : string :=
  ("{" ++ quoted "moisture" ++ ":" ++ decimal moisture ++
   "," ++ quoted "temp" ++ ":" ++ decimal temp ++
   "," ++ quoted "ph" ++ ":" ++ decimal ph ++
   "," ++ quoted "rain" ++ ":" ++ decimal rain ++
   "," ++ quoted "water_level" ++ ":" ++ decimal water_level ++
   "}" ++ crlf)%string.

(** A transmitted line is a record of the protocol on a board [device] when
    it is [record_text] of the percentage of some reading of the ADC data
    register, the three placeholder values and the rain flag of some reading
    of the GPIO input register. *)
Definition is_record (device : nat -> reg -> Z) (line : list ascii) : Prop :=
  exists t1 t2,
    line = list_ascii_of_string
             (record_text (device t1 ADC_DR * 100 / 4095) 25 7
                (if Z.testbit (device t2 GPIOA_IDR) 4 then 0 else 1) 75).

(** Number of positions of [text] at which [pat] occurs. *)
Fixpoint prefixb (pat text : list ascii) : bool :=
  match pat, text with
  | [], _ => true
  | _ :: _, [] => false
  | a :: pat', b :: text' => Ascii.eqb a b && prefixb pat' text'
  end.

Fixpoint occurrences (pat text : list ascii) : nat :=
  ((if prefixb pat text then 1 else 0) +
   match text with
   | [] => 0
   | _ :: text' => occurrences pat text'
   end)%nat.

(** Decimal digits, and the characters a number is written with. *)
Definition is_digit (c : ascii) : bool :=
  (48 <=? char_code c) && (char_code c <=? 57).

Definition number_char (c : ascii) : bool :=
  is_digit c || Ascii.eqb c "-"%char.

(** The two mode bits of pin [pin] in a GPIO mode register:
    0 input, 1 output, 2 alternate function, 3 analog. *)
Definition pin_mode (moder pin : Z) : Z :=
  Z.land (Z.shiftr moder (2 * pin)) 3.

(** What start-up is there to establish: the four peripheral clocks on, the
    six pins in their modes with the alternate function and the pull-up
    selected, the serial port with its divisor and enabled for both
    directions, and the ADC enable written. *)
Definition initialised (s : hw) : Prop :=
  Z.testbit (regs s RCC_AHBENR) 17 = true /\
  Z.testbit (regs s RCC_AHBENR) 18 = true /\
  Z.testbit (regs s RCC_APB2ENR) 9 = true /\
  Z.testbit (regs s RCC_APB1ENR) 17 = true /\
  pin_mode (regs s GPIOA_MODER) 0 = 3 /\
  pin_mode (regs s GPIOA_MODER) 1 = 3 /\
  pin_mode (regs s GPIOA_MODER) 2 = 2 /\
  pin_mode (regs s GPIOA_MODER) 3 = 2 /\
  pin_mode (regs s GPIOA_MODER) 4 = 0 /\
  pin_mode (regs s GPIOA_MODER) 5 = 1 /\
  Z.testbit (regs s GPIOA_AFR0) 8 = true /\
  Z.testbit (regs s GPIOA_AFR0) 12 = true /\
  Z.testbit (regs s GPIOA_PUPDR) 8 = true /\
  regs s USART2_BRR = 69 /\
  Z.testbit (regs s USART2_CR1) 0 = true /\
  Z.testbit (regs s USART2_CR1) 2 = true /\
  Z.testbit (regs s USART2_CR1) 3 = true /\
  Z.testbit (regs s ADC_CR) 0 = true.

(** A reader for the record line (not firmware code): what a consumer of the
    serial stream does to get the five fields back. *)
Fixpoint strip (pre text : list ascii) : option (list ascii) :=
  match pre, text with
  | [], _ => Some text
  | _ :: _, [] => None
  | a :: pre', b :: text' =>
      if Ascii.eqb a b then strip pre' text' else None
  end.

Fixpoint span_number (text : list ascii) : list ascii * list ascii :=
  match text with
  | [] => ([], [])
  | c :: text' =>
      if number_char c
      then let (num, rest) := span_number text' in (c :: num, rest)
      else ([], text)
  end.

(** The characters a C string literal denotes: those before the first NUL. *)
Fixpoint c_string (s : string) : list ascii :=
  match s with
  | EmptyString => []
  | String c s' => if truthy (char_code c) then c :: c_string s' else []
  end.

Definition read_field (key : string) (text : list ascii)
    : option (Z * list ascii) :=
  match strip (c_string key) text with
  | None => None
  | Some rest =>
      let (num, rest') := span_number rest in
      match parse_decimal (string_of_list_ascii num) with
      | Some z => Some (z, rest')
      | None => None
      end
  end.

Definition parse_record (line : list ascii) : option (Z * Z * Z * Z * Z) :=
  match read_field ("{" ++ quoted "moisture" ++ ":") line with
  | None => None
  | Some (moisture, l1) =>
  match read_field ("," ++ quoted "temp" ++ ":") l1 with
  | None => None
  | Some (temp, l2) =>
  match read_field ("," ++ quoted "ph" ++ ":") l2 with
  | None => None
  | Some (ph, l3) =>
  match read_field ("," ++ quoted "rain" ++ ":") l3 with
  | None => None
  | Some (rain, l4) =>
  match read_field ("," ++ quoted "water_level" ++ ":") l4 with
  | None => None
  | Some (water_level, l5) =>
      if list_eq_dec ascii_dec l5 (c_string ("}" ++ crlf))
      then Some (moisture, temp, ph, rain, water_level)
      else None
  end end end end end.

(** ** Reasoning about runs *)

(** [wp m s Q]: from [s], [m] runs to completion and [Q] holds of its result
    and final state. *)
Definition wp {A} (m : M A) (s : hw) (Q : A -> hw -> Prop) : Prop :=
  match m s with
  | Done a s' => Q a s'
  | _ => False
  end.

(** [effect W out s s']: between [s] and [s'] exactly [out] was transmitted
    and only registers in [W] may have changed. *)
Definition effect (W : list reg) (out : list ascii) (s s' : hw) : Prop :=
  tx s' = tx s ++ out /\ forall r, ~ In r W -> regs s' r = regs s r.

(** [sends W m out]: from every state [m] completes, transmits exactly [out]
    and changes no register outside [W]. *)
Definition sends {A} (W : list reg) (m : M A) (out : list ascii) : Prop :=
  forall s, wp m s (fun _ s' => effect W out s s').

(** [follows d d' P m m']: wherever [m], run on the board [d], completes, it
    has only moved the access count forward, and [m'], run on a board [d']
    that presents the same values as [d] on the registers in [P] during those
    accesses, completes in the same way.  So [m] reads the board through the
    registers in [P] only, and only while it runs. *)
Definition follows {A} (d d' : nat -> reg -> Z) (P : reg -> Prop)
    (m m' : M A) : Prop :=
  forall s a s',
    m s = Done a s' ->
    (clock s <= clock s')%nat /\
    ((forall t r, (clock s <= t < clock s')%nat -> P r -> d' t r = d t r) ->
     m' s = Done a s').

(** Registers written during start-up and by an ADC conversion. *)
Definition init_regs : list reg :=
  [RCC_AHBENR; RCC_APB2ENR; RCC_APB1ENR; GPIOA_MODER; GPIOA_AFR0; GPIOA_PUPDR;
   USART2_BRR; USART2_CR1; ADC_CR].

Definition adc_regs : list reg := [ADC_CHSELR; ADC_CR].

(** Registers written by one pass of the main loop. *)
Definition loop_regs : list reg := GPIOA_ODR :: USART2_TDR :: adc_regs.

(** * Properties *)

Lemma wp_ret {A} (a : A) s Q : Q a s -> wp (ret a) s Q.
Proof. exact (fun H => H). Qed.

Lemma wp_bind {A B} (m : M A) (f : A -> M B) s Q :
  wp m s (fun a s' => wp (f a) s' Q) -> wp (bind m f) s Q.
Proof. unfold wp, bind. destruct (m s); auto. Qed.

Lemma wp_mono {A} (m : M A) s (Q Q' : A -> hw -> Prop) :
  wp m s Q -> (forall a s', Q a s' -> Q' a s') -> wp m s Q'.
Proof. unfold wp. destruct (m s); auto. Qed.

Lemma wp_done {A} (m : M A) s Q :
  wp m s Q -> exists a s', m s = Done a s' /\ Q a s'.
Proof. unfold wp. destruct (m s); try contradiction. eauto. Qed.

Lemma wp_of_done {A} (m : M A) s a s' (Q : A -> hw -> Prop) :
  m s = Done a s' -> Q a s' -> wp m s Q.
Proof. unfold wp. intros ->. auto. Qed.

Lemma effect_refl W s : effect W [] s s.
Proof. split; [now rewrite app_nil_r | auto]. Qed.

Lemma effect_trans W o1 o2 s s1 s2 :
  effect W o1 s s1 -> effect W o2 s1 s2 -> effect W (o1 ++ o2) s s2.
Proof.
  intros [T1 R1] [T2 R2]. split.
  - rewrite T2, T1. now rewrite app_assoc.
  - intros r Hr. rewrite R2, R1; auto.
Qed.

Lemma effect_weaken W W' o s s' :
  incl W W' -> effect W o s s' -> effect W' o s s'.
Proof.
  intros Hi [T R]. split; auto.
Qed.

(** ** Bit tests *)

Lemma land_bit (x b : Z) :
  0 <= b -> Z.land x (Z.shiftl 1 b) = if Z.testbit x b then 2 ^ b else 0.
Proof.
  intros Hb. rewrite Z.shiftl_1_l. apply Z.bits_inj'. intros n Hn.
  rewrite Z.land_spec, Z.pow2_bits_eqb by assumption.
  destruct (Z.eqb_spec b n) as [->|Hne].
  - rewrite andb_true_r. destruct (Z.testbit x n); [|now rewrite Z.bits_0].
    rewrite Z.pow2_bits_eqb by assumption. now rewrite Z.eqb_refl.
  - rewrite andb_false_r. destruct (Z.testbit x b); [|now rewrite Z.bits_0].
    rewrite Z.pow2_bits_eqb by assumption.
    symmetry. now apply Z.eqb_neq.
Qed.

Lemma truthy_bit (x b : Z) :
  0 <= b -> truthy (Z.land x (Z.shiftl 1 b)) = Z.testbit x b.
Proof.
  intros Hb. rewrite land_bit by assumption. unfold truthy.
  destruct (Z.testbit x b); [|reflexivity].
  assert (0 < 2 ^ b) by (apply Z.pow_pos_nonneg; lia).
  destruct (Z.eqb_spec (2 ^ b) 0); [lia | reflexivity].
Qed.

Lemma to_unsigned_bit (v b : Z) :
  0 <= b < 32 -> Z.testbit (to_unsigned v) b = Z.testbit v b.
Proof.
  intros Hb. unfold to_unsigned. apply Z.mod_pow2_bits_low. lia.
Qed.

Lemma to_unsigned_range v : 0 <= to_unsigned v < 2 ^ 32.
Proof. unfold to_unsigned. apply Z.mod_pos_bound. reflexivity. Qed.

Lemma to_unsigned_small v : 0 <= v < 2 ^ 32 -> to_unsigned v = v.
Proof. intros H. unfold to_unsigned. now apply Z.mod_small. Qed.

Lemma to_char_code c : to_char (char_code c) = c.
Proof.
  unfold to_char, char_code.
  pose proof (N_ascii_bounded c) as Hc.
  rewrite Z.mod_small by lia.
  rewrite N2Z.id. apply ascii_N_embedding.
Qed.

(** ** Busy waits and character output *)

Section Runs.

Variable device : nat -> reg -> Z.
Variable fuel : nat.

Lemma while_poll (r : reg) (keep : Z -> bool) :
  driven r = true ->
  forall d F s,
    (d < F)%nat ->
    keep (to_unsigned (device (clock s + d)%nat r)) = false ->
    wp (while F (fun _ : unit => v <- Load device r ;; ret (keep v))
              (fun _ => ret tt) tt) s
       (fun _ s' => effect [] [] s s').
Proof.
  intros Hr. induction d as [|d IH]; intros F s HF Hk.
  - destruct F as [|F]; [lia|]. rewrite Nat.add_0_r in Hk.
    unfold wp. simpl. unfold bind, Load. rewrite Hr, Hk. simpl.
    split; simpl; [now rewrite app_nil_r | auto].
  - destruct F as [|F]; [lia|].
    unfold wp. simpl. unfold bind at 1 2. unfold Load at 1. rewrite Hr.
    unfold ret at 1.
    destruct (keep (to_unsigned (device (clock s) r))) eqn:Hnow.
    + unfold bind at 1. unfold ret at 1.
      set (s1 := mk_hw (regs s) (tx s) (S (clock s))).
      assert (H1 : wp (while F (fun _ : unit => v <- Load device r ;; ret (keep v))
                         (fun _ => ret tt) tt) s1
                      (fun _ s' => effect [] [] s1 s')).
      { apply IH; [lia|]. simpl. now rewrite Nat.add_succ_r in Hk. }
      revert H1. unfold wp.
      destruct (while F _ _ tt s1) as [a s'| |]; intros H1; exact H1.
    + unfold ret. split; simpl; [now rewrite app_nil_r | auto].
Qed.

Lemma spin_flag (r : reg) (b : Z) (v : bool) (keep : Z -> bool) s :
  driven r = true ->
  responds device fuel r b v ->
  (forall x, Z.testbit x b = v -> keep (to_unsigned x) = false) ->
  wp (spin fuel (x <- Load device r ;; ret (keep x))) s
     (fun _ s' => effect [] [] s s').
Proof.
  intros Hr Hlive Hkeep.
  destruct (Hlive (clock s)) as (d & Hd & Hbit).
  apply (while_poll r keep Hr d); auto.
Qed.

Hypothesis txe_ready : responds device fuel USART2_ISR 7 true.

Lemma uart_putchar_spec c s :
  wp (uart_putchar device fuel c) s
     (fun _ s' => effect [USART2_TDR] [c] s s').
Proof.
  unfold uart_putchar. apply wp_bind.
  eapply wp_mono.
  - apply (spin_flag USART2_ISR 7 true); auto.
    intros x Hx. rewrite truthy_bit by lia.
    rewrite to_unsigned_bit by lia. now rewrite Hx.
  - intros _ s1 [T R]. unfold wp, Store. simpl. split; simpl.
    + rewrite T, app_nil_r. now rewrite to_char_code.
    + intros r Hr. unfold upd.
      destruct (reg_eq_dec USART2_TDR r) as [<-|_].
      * exfalso. apply Hr. now left.
      * apply R. intros [].
Qed.

Lemma uart_puts_spec str s :
  wp (uart_puts device fuel str) s
     (fun _ s' => effect [USART2_TDR] (c_string str) s s').
Proof.
  revert s. induction str as [|c str IH]; intros s; simpl.
  - apply wp_ret, effect_refl.
  - destruct (truthy (char_code c)).
    + apply wp_bind. eapply wp_mono; [apply uart_putchar_spec|].
      intros u s1 H1. eapply wp_mono; [apply IH|].
      intros u' s2 H2. apply (effect_trans _ [c] _ _ _ _ H1 H2).
    + apply wp_ret, effect_refl.
Qed.

End Runs.

(** ** The digit loops of uart_putnum *)

Lemma checked_ok z s : in_int z -> checked z s = Done z s.
Proof.
  unfold in_int, checked, in_intb. intros [H1 H2].
  apply Z.leb_le in H1. apply Z.leb_le in H2. now rewrite H1, H2.
Qed.

Lemma checked_overflow z s : ~ in_int z -> checked z s = Fault SignedOverflow s.
Proof.
  unfold in_int, checked, in_intb. intros H.
  destruct (Z.leb_spec INT_MIN z); destruct (Z.leb_spec z INT_MAX);
    simpl; try reflexivity.
  exfalso. apply H. lia.
Qed.

Lemma set_cell_next (done : list ascii) (x : option ascii) (rest : cells)
    (c : ascii) :
  set_cell (map Some done ++ x :: rest) (length done) c
  = map Some (done ++ [c]) ++ rest.
Proof.
  induction done as [|y done IH]; simpl.
  - reflexivity.
  - now rewrite IH.
Qed.

Lemma cells_length (done : list ascii) (m : nat) :
  length (map Some done ++ repeat (@None ascii) m) = (length done + m)%nat.
Proof. now rewrite length_app, length_map, repeat_length. Qed.

Lemma quot10_bounds n : 0 < n -> 0 <= Z.quot n 10 < n.
Proof.
  intros Hn. split.
  - apply Z.quot_pos; lia.
  - apply Z.quot_lt; lia.
Qed.

Lemma rem10_bounds n : 0 <= n -> 0 <= Z.rem n 10 < 10.
Proof. intros Hn. apply Z.rem_bound_pos; lia. Qed.

Lemma fill_step_ok num (done : list ascii) s :
  0 < num <= INT_MAX -> (length done < 12)%nat ->
  fill_step (num, Z.of_nat (length done),
             map Some done ++ repeat None (12 - length done)) s
  = Done (Z.quot num 10,
          Z.of_nat (length (done ++ [digit_char (Z.rem num 10)])),
          map Some (done ++ [digit_char (Z.rem num 10)])
            ++ repeat None (12 - length (done ++ [digit_char (Z.rem num 10)]))) s.
Proof.
  intros Hnum Hlen.
  pose proof (quot10_bounds num ltac:(lia)) as Hq.
  pose proof (rem10_bounds num ltac:(lia)) as Hr.
  unfold INT_MAX in Hnum.
  cbv [fill_step int_rem int_add int_div int_sub bind ret].
  change (10 =? 0) with false. cbv beta iota.
  rewrite checked_ok by (unfold in_int, INT_MIN, INT_MAX; lia).
  cbv beta iota.
  rewrite checked_ok
    by (change (char_code "0"%char) with 48; unfold in_int, INT_MIN, INT_MAX; lia).
  cbv beta iota.
  unfold buf_store, in_bounds. rewrite cells_length.
  replace (length done + (12 - length done))%nat with 12%nat by lia.
  destruct (Z.leb_spec 0 (Z.of_nat (length done))); [|lia].
  destruct (Z.ltb_spec (Z.of_nat (length done)) (Z.of_nat 12)); [|lia].
  cbv [andb ret]. cbv beta iota. rewrite Nat2Z.id.
  rewrite checked_ok by (unfold in_int, INT_MIN, INT_MAX; lia).
  cbv beta iota.
  rewrite checked_ok by (unfold in_int, INT_MIN, INT_MAX; lia).
  cbv beta iota.
  rewrite length_app. simpl length.
  replace (12 - length done)%nat with (S (12 - (length done + 1)))%nat by lia.
  change (repeat (@None ascii) (S (12 - (length done + 1))))
    with (@None ascii :: repeat None (12 - (length done + 1))).
  rewrite set_cell_next. unfold digit_char.
  replace (Z.of_nat (length done) + 1) with (Z.of_nat (length done + 1)) by lia.
  reflexivity.
Qed.

Lemma while_true {L} F (cond : L -> M bool) body (l l' : L) s s1 s' :
  cond l s = Done true s1 -> body l s1 = Done l' s' ->
  while (S F) cond body l s = while F cond body l' s'.
Proof. intros Hc Hb. simpl. unfold bind. now rewrite Hc, Hb. Qed.

Lemma while_false {L} F (cond : L -> M bool) body (l : L) s s1 :
  cond l s = Done false s1 ->
  while (S F) cond body l s = Done l s1.
Proof. intros Hc. simpl. unfold bind. now rewrite Hc. Qed.

Lemma fill_run (k : nat) :
  forall F num (done : list ascii) s,
    0 <= num < 10 ^ Z.of_nat k -> num <= INT_MAX ->
    (k < F)%nat -> (length done + k <= 12)%nat ->
    putnum_fill F (num, Z.of_nat (length done),
                   map Some done ++ repeat None (12 - length done)) s
    = Done (0, Z.of_nat (length (done ++ map digit_char (lsd k num))),
            map Some (done ++ map digit_char (lsd k num))
              ++ repeat None (12 - length (done ++ map digit_char (lsd k num)))) s.
Proof.
  induction k as [|k IH]; intros F num done s Hnum Hmax HF Hlen.
  - destruct F as [|F]; [lia|].
    assert (num = 0) by (simpl in Hnum; lia). subst num.
    unfold putnum_fill. rewrite (while_false _ _ _ _ s s) by reflexivity.
    simpl lsd. simpl map. now rewrite app_nil_r.
  - destruct F as [|F]; [lia|].
    unfold putnum_fill.
    destruct (Z.ltb_spec 0 num) as [Hpos|Hzero].
    + pose proof (quot10_bounds num Hpos) as Hq.
      assert (Hc : ret (A:=bool) (0 <? num) s = Done true s)
        by (unfold ret; now rewrite (proj2 (Z.ltb_lt 0 num) Hpos)).
      assert (Hl : (length done < 12)%nat) by lia.
      rewrite (while_true F (fun '(n, _, _) => ret (0 <? n)) fill_step
                 (num, Z.of_nat (length done),
                  map Some done ++ repeat None (12 - length done)) _ s s s
                 Hc (fill_step_ok num done s (conj Hpos Hmax) Hl)).
      fold (putnum_fill F).
      rewrite IH; try lia.
      * simpl lsd. rewrite (proj2 (Z.ltb_lt 0 num) Hpos).
        simpl map. rewrite <- app_assoc. reflexivity.
      * split; [lia|].
        rewrite Z.quot_div_nonneg by lia.
        apply Z.div_lt_upper_bound; [lia|].
        rewrite Nat2Z.inj_succ, Z.pow_succ_r in Hnum by lia. lia.
      * rewrite length_app. simpl. lia.
    + assert (num = 0) by lia. subst num.
      rewrite (while_false _ _ _ _ s s) by reflexivity.
      simpl lsd. simpl map. now rewrite app_nil_r.
Qed.

Lemma wp_while_true {L} F (cond : L -> M bool) body (l : L) s Q :
  cond l s = Done true s ->
  wp (body l) s (fun l' s' => wp (while F cond body l') s' Q) ->
  wp (while (S F) cond body l) s Q.
Proof.
  intros Hc. unfold wp. simpl. unfold bind. rewrite Hc.
  destruct (body l s); auto.
Qed.

Lemma nth_cells (done : list ascii) (pad : cells) (d : ascii) :
  forall j, (j < length done)%nat ->
    nth j (map Some done ++ pad) None = Some (nth j done d).
Proof.
  induction done as [|x done IH]; intros j Hj; simpl in Hj; [lia|].
  destruct j as [|j]; simpl; [reflexivity|]. apply IH. lia.
Qed.

Lemma firstn_snoc (l : list ascii) (d : ascii) :
  forall j, (j < length l)%nat ->
    firstn (S j) l = firstn j l ++ [nth j l d].
Proof.
  induction l as [|x l IH]; intros j Hj; simpl in Hj; [lia|].
  destruct j as [|j]; [reflexivity|].
  change (firstn (S (S j)) (x :: l)) with (x :: firstn (S j) l).
  rewrite IH by lia. reflexivity.
Qed.

Lemma lsd_length k : forall n, (length (lsd k n) <= k)%nat.
Proof.
  induction k as [|k IH]; intros n; simpl; [lia|].
  destruct (0 <? n); simpl; [|lia]. specialize (IH (Z.quot n 10)). lia.
Qed.

Section Putnum.

Variable device : nat -> reg -> Z.
Variable fuel : nat.
Hypothesis txe_ready : responds device fuel USART2_ISR 7 true.

Lemma drain_step_spec (done : list ascii) (pad : cells) (j : nat) s :
  (j < length done)%nat -> Z.of_nat (length done) <= INT_MAX ->
  wp (drain_step device fuel (map Some done ++ pad) (Z.of_nat (S j))) s
     (fun i' s' => i' = Z.of_nat j /\
                   effect [USART2_TDR] [nth j done "000"%char] s s').
Proof.
  intros Hj Hmax. unfold INT_MAX in Hmax.
  unfold drain_step, int_sub. apply wp_bind.
  apply (wp_of_done _ _ (Z.of_nat j) s).
  { replace (Z.of_nat (S j) - 1) with (Z.of_nat j) by lia.
    apply checked_ok. unfold in_int, INT_MIN, INT_MAX. lia. }
  apply wp_bind.
  apply (wp_of_done _ _ (nth j done "000"%char) s).
  { unfold buf_load, in_bounds. rewrite length_app, length_map.
    destruct (Z.leb_spec 0 (Z.of_nat j)); [|lia].
    destruct (Z.ltb_spec (Z.of_nat j) (Z.of_nat (length done + length pad)));
      [|lia].
    cbv [andb]. rewrite Nat2Z.id.
    now rewrite (nth_cells done pad "000"%char j Hj). }
  apply wp_bind. eapply wp_mono; [apply uart_putchar_spec, txe_ready|].
  intros u s1 H1. apply wp_ret. now split.
Qed.

Lemma drain_run (done : list ascii) (pad : cells) :
  Z.of_nat (length done) <= INT_MAX ->
  forall j F s,
    (j <= length done)%nat -> (j < F)%nat ->
    wp (while F (fun i => ret (0 <? i))
              (drain_step device fuel (map Some done ++ pad)) (Z.of_nat j)) s
       (fun _ s' => effect [USART2_TDR] (rev (firstn j done)) s s').
Proof.
  intros Hmax. induction j as [|j IH]; intros F s Hj HF.
  - destruct F as [|F]; [lia|].
    apply (wp_of_done _ _ 0 s); [|apply effect_refl].
    now apply while_false.
  - destruct F as [|F]; [lia|].
    apply wp_while_true.
    + unfold ret. now destruct (Z.ltb_spec 0 (Z.of_nat (S j))); [|lia].
    + eapply wp_mono; [apply drain_step_spec; [lia | assumption]|].
      intros i' s1 [-> H1]. eapply wp_mono; [apply IH; lia|].
      intros i'' s2 H2.
      rewrite (firstn_snoc done "000"%char j) by lia.
      rewrite rev_app_distr. simpl rev.
      apply (effect_trans _ [nth j done "000"%char] _ _ _ _ H1 H2).
Qed.

Hypothesis enough_fuel : (12 <= fuel)%nat.

(** The two digit loops, started on a positive [int]: the digits go out
    most significant first. *)
Lemma putnum_digits num s :
  0 < num <= INT_MAX ->
  wp ('(_, i, buf) <- putnum_fill fuel (num, 0, uninit 12) ;;
      _ <- putnum_drain device fuel buf i ;; ret tt) s
     (fun _ s' => effect [USART2_TDR] (rev (map digit_char (lsd 10 num))) s s').
Proof.
  intros Hnum. apply wp_bind.
  pose proof (fill_run 10 fuel num [] s) as Hfill.
  change (map Some [] ++ repeat None (12 - length (@nil ascii)))
    with (uninit 12) in Hfill.
  change (Z.of_nat (length (@nil ascii))) with 0 in Hfill.
  rewrite !app_nil_l in Hfill.
  assert (Hlen := lsd_length 10 num).
  set (ds := map digit_char (lsd 10 num)) in *.
  assert (Hds : (length ds <= 10)%nat) by (unfold ds; now rewrite length_map).
  eapply wp_of_done.
  { apply Hfill; unfold INT_MAX in *; simpl; lia. }
  cbv beta iota. apply wp_bind.
  eapply wp_mono.
  - apply (drain_run ds _ ltac:(unfold INT_MAX; lia) (length ds) fuel s); lia.
  - intros i' s1 H1. apply wp_ret. now rewrite firstn_all in H1.
Qed.

Lemma uart_putnum_sends n s :
  INT_MIN < n <= INT_MAX ->
  wp (uart_putnum device fuel n) s
     (fun _ s' => effect [USART2_TDR] (putnum_text n) s s').
Proof.
  intros Hn. unfold uart_putnum, putnum_text.
  destruct (Z.eqb_spec n 0) as [->|Hnz].
  - apply uart_putchar_spec, txe_ready.
  - apply wp_bind. destruct (Z.ltb_spec n 0) as [Hneg|Hpos].
    + apply wp_bind. eapply wp_mono; [apply uart_putchar_spec, txe_ready|].
      intros u s1 H1. unfold int_neg.
      eapply wp_of_done.
      { apply checked_ok. unfold in_int, INT_MIN, INT_MAX in *. lia. }
      eapply wp_mono.
      { apply putnum_digits. unfold INT_MIN, INT_MAX in *. lia. }
      intros u' s2 H2.
      apply (effect_trans _ ["-"%char] _ _ _ _ H1 H2).
    + apply wp_ret. apply putnum_digits. lia.
Qed.

(** At [INT_MIN] the minus sign goes out and the negation overflows. *)
Lemma uart_putnum_INT_MIN s :
  exists s', uart_putnum device fuel INT_MIN s = Fault SignedOverflow s'
             /\ effect [USART2_TDR] ["-"%char] s s'.
Proof.
  destruct (wp_done _ _ _ (uart_putchar_spec device fuel txe_ready "-"%char s))
    as (u & s1 & Hput & Heff).
  exists s1. split; [|assumption].
  unfold uart_putnum. change (INT_MIN =? 0) with false.
  change (INT_MIN <? 0) with true. cbv iota.
  unfold bind. now rewrite Hput.
Qed.

End Putnum.

(** ** The transmitted digits are the decimal numeral *)

Ltac digit_cases d H :=
  assert (d = 0 \/ d = 1 \/ d = 2 \/ d = 3 \/ d = 4 \/ d = 5 \/ d = 6 \/
          d = 7 \/ d = 8 \/ d = 9) as H by lia;
  repeat (destruct H as [H|H]); subst d.

Lemma of_lu_digit d u :
  0 <= d <= 9 ->
  DecimalPos.Unsigned.of_lu (digit_uint d u)
  = (Z.to_N d + 10 * DecimalPos.Unsigned.of_lu u)%N.
Proof.
  intros Hd. digit_cases d H; rewrite DecimalPos.Unsigned.of_lu_eqn;
    reflexivity.
Qed.

Lemma string_of_uint_digit d u :
  0 <= d <= 9 ->
  NilEmpty.string_of_uint (digit_uint d u)
  = String (digit_char d) (NilEmpty.string_of_uint u).
Proof. intros Hd. digit_cases d H; reflexivity. Qed.

Lemma revapp_digit d u acc :
  Decimal.revapp (digit_uint d u) acc = Decimal.revapp u (digit_uint d acc).
Proof. destruct d as [|p|p]; try reflexivity. do 4 (destruct p; try reflexivity). Qed.

Lemma unorm_digit d u :
  1 <= d <= 9 -> Decimal.unorm (digit_uint d u) = digit_uint d u.
Proof. intros Hd. digit_cases d H; try lia; reflexivity. Qed.

Lemma lsd_zero k : lsd k 0 = [].
Proof. destruct k; reflexivity. Qed.

Lemma lsd_value k :
  forall n, 0 <= n < 10 ^ Z.of_nat k ->
    DecimalPos.Unsigned.of_lu (lu_of (lsd k n)) = Z.to_N n.
Proof.
  induction k as [|k IH]; intros n Hn.
  - assert (n = 0) by (simpl in Hn; lia). subst n. reflexivity.
  - simpl lsd. destruct (Z.ltb_spec 0 n) as [Hpos|Hz].
    + simpl lu_of. fold (lu_of (lsd k (Z.quot n 10))).
      pose proof (rem10_bounds n ltac:(lia)) as Hr.
      pose proof (quot10_bounds n Hpos) as Hq.
      rewrite of_lu_digit by lia. rewrite IH.
      * pose proof (Z.quot_rem' n 10) as E. lia.
      * split; [lia|].
        rewrite Z.quot_div_nonneg by lia.
        apply Z.div_lt_upper_bound; [lia|].
        rewrite Nat2Z.inj_succ, Z.pow_succ_r in Hn by lia. lia.
    + assert (n = 0) by lia. subst n. reflexivity.
Qed.

Lemma quot10_below k n :
  0 < n < 10 ^ Z.of_nat (S k) -> 0 <= Z.quot n 10 < 10 ^ Z.of_nat k.
Proof.
  intros Hn. pose proof (quot10_bounds n ltac:(lia)) as Hq.
  split; [lia|].
  rewrite Z.quot_div_nonneg by lia.
  apply Z.div_lt_upper_bound; [lia|].
  rewrite Nat2Z.inj_succ, Z.pow_succ_r in Hn by lia. lia.
Qed.

Lemma lsd_normal k :
  forall n acc, 0 < n < 10 ^ Z.of_nat k ->
    Decimal.unorm (Decimal.revapp (lu_of (lsd k n)) acc)
    = Decimal.revapp (lu_of (lsd k n)) acc.
Proof.
  induction k as [|k IH]; intros n acc Hn.
  - simpl in Hn. lia.
  - simpl lsd. destruct (Z.ltb_spec 0 n) as [Hpos|Hz]; [|lia].
    simpl lu_of. fold (lu_of (lsd k (Z.quot n 10))).
    rewrite revapp_digit.
    pose proof (quot10_below k n Hn) as Hq.
    destruct (Z.eq_dec (Z.quot n 10) 0) as [E|E].
    + rewrite E, lsd_zero. simpl.
      apply unorm_digit.
      pose proof (Z.quot_rem' n 10) as Q.
      pose proof (rem10_bounds n ltac:(lia)). lia.
    + apply IH. lia.
Qed.

Lemma lsd_digits k : forall n, Forall (fun d => 0 <= d <= 9) (lsd k n).
Proof.
  induction k as [|k IH]; intros n; simpl; [constructor|].
  destruct (Z.ltb_spec 0 n) as [Hpos|Hz]; [|constructor].
  constructor; [|apply IH].
  pose proof (rem10_bounds n ltac:(lia)). lia.
Qed.

Lemma string_of_revapp ds :
  Forall (fun d => 0 <= d <= 9) ds ->
  forall acc,
    list_ascii_of_string (NilEmpty.string_of_uint (Decimal.revapp (lu_of ds) acc))
    = rev (map digit_char ds)
        ++ list_ascii_of_string (NilEmpty.string_of_uint acc).
Proof.
  induction 1 as [|d ds Hd Hds IH]; intros acc.
  - reflexivity.
  - simpl lu_of. fold (lu_of ds). rewrite revapp_digit, IH.
    rewrite string_of_uint_digit by assumption.
    simpl. now rewrite <- app_assoc.
Qed.

Lemma to_uint_lsd k p :
  Z.pos p < 10 ^ Z.of_nat k ->
  Pos.to_uint p = Decimal.rev (lu_of (lsd k (Z.pos p))).
Proof.
  intros Hp. unfold Decimal.rev.
  rewrite <- (lsd_normal k (Z.pos p) Decimal.Nil) by lia.
  change (Decimal.revapp (lu_of (lsd k (Z.pos p))) Decimal.Nil)
    with (Decimal.rev (lu_of (lsd k (Z.pos p)))).
  rewrite <- DecimalPos.Unsigned.to_of, DecimalPos.Unsigned.of_lu_rev.
  rewrite lsd_value by lia. reflexivity.
Qed.

Lemma digits_decimal k p :
  Z.pos p < 10 ^ Z.of_nat k ->
  rev (map digit_char (lsd k (Z.pos p)))
  = list_ascii_of_string (NilZero.string_of_uint (Pos.to_uint p)).
Proof.
  intros Hp. unfold NilZero.string_of_uint.
  pose proof (DecimalPos.Unsigned.to_uint_nonnil p) as Hnil.
  rewrite (to_uint_lsd k p Hp) in *.
  destruct (Decimal.rev (lu_of (lsd k (Z.pos p)))) eqn:E;
    try (exfalso; now apply Hnil);
    rewrite <- E; unfold Decimal.rev;
    rewrite string_of_revapp by apply lsd_digits;
    simpl; now rewrite app_nil_r.
Qed.

Lemma putnum_text_decimal n :
  - 10 ^ 10 < n < 10 ^ 10 -> putnum_text n = list_ascii_of_string (decimal n).
Proof.
  intros Hn. unfold putnum_text, decimal. destruct n as [|p|p].
  - reflexivity.
  - change (Z.pos p =? 0) with false. change (Z.pos p <? 0) with false.
    cbv iota. change (Z.to_int (Z.pos p)) with (Decimal.Pos (Pos.to_uint p)).
    unfold NilZero.string_of_int.
    apply (digits_decimal 10 p). change (Z.of_nat 10) with 10. lia.
  - change (Z.neg p =? 0) with false. change (Z.neg p <? 0) with true.
    cbv iota. change (- Z.neg p) with (Z.pos p).
    change (Z.to_int (Z.neg p)) with (Decimal.Neg (Pos.to_uint p)).
    unfold NilZero.string_of_int.
    rewrite (digits_decimal 10 p) by (change (Z.of_nat 10) with 10; lia).
    reflexivity.
Qed.

Lemma parse_decimal_of n : parse_decimal (decimal n) = Some n.
Proof.
  unfold parse_decimal, decimal.
  rewrite NilZero.isi.
  - simpl. now rewrite DecimalZ.of_to.
  - destruct n as [|p|p]; try discriminate.
    simpl. intros [= E]. now apply (DecimalPos.Unsigned.to_uint_nonnil p).
  - destruct n as [|p|p]; try discriminate.
    simpl. intros [= E]. now apply (DecimalPos.Unsigned.to_uint_nonnil p).
Qed.

(** ** Sequencing of effects *)

Ltac solve_incl := intros ? ?; simpl in *; tauto.

Lemma sends_ret {A} W (a : A) : sends W (ret a) [].
Proof. intros s. apply wp_ret, effect_refl. Qed.

Lemma sends_bind {A B} W (m : M A) (f : A -> M B) o1 o2 :
  sends W m o1 -> (forall a, sends W (f a) o2) -> sends W (bind m f) (o1 ++ o2).
Proof.
  intros Hm Hf s. apply wp_bind. eapply wp_mono; [apply Hm|].
  intros a s1 H1. eapply wp_mono; [apply Hf|].
  intros b s2 H2. apply (effect_trans _ _ _ _ _ _ H1 H2).
Qed.

Lemma sends_weaken {A} W W' (m : M A) o :
  incl W W' -> sends W m o -> sends W' m o.
Proof.
  intros Hi Hm s. eapply wp_mono; [apply Hm|].
  intros a s' H. now apply (effect_weaken W W').
Qed.

Lemma sends_silent_bind {A B} W (m : M A) (f : A -> M B) o :
  sends W m [] -> (forall a, sends W (f a) o) -> sends W (bind m f) o.
Proof. intros Hm Hf. apply (sends_bind W m f [] o Hm Hf). Qed.

Lemma Load_sends device r W : sends W (Load device r) [].
Proof.
  intros s. unfold wp, Load. split; simpl; [now rewrite app_nil_r | auto].
Qed.

Lemma Store_sends r v W :
  r <> USART2_TDR -> In r W -> sends W (Store r v) [].
Proof.
  intros Hr HW s. unfold wp, Store. split; simpl.
  - destruct (reg_eq_dec r USART2_TDR); [contradiction|]. now rewrite app_nil_r.
  - intros r' Hr'. unfold upd. destruct (reg_eq_dec r r') as [<-|]; tauto.
Qed.

Lemma set_bits_sends device r v W :
  r <> USART2_TDR -> In r W -> sends W (set_bits device r v) [].
Proof.
  intros Hr HW. unfold set_bits.
  apply sends_silent_bind; [apply Load_sends|]. intros old.
  now apply Store_sends.
Qed.

Lemma mask_bits_sends device r v W :
  r <> USART2_TDR -> In r W -> sends W (mask_bits device r v) [].
Proof.
  intros Hr HW. unfold mask_bits.
  apply sends_silent_bind; [apply Load_sends|]. intros old.
  now apply Store_sends.
Qed.

(** ** delay_ms *)

Lemma for_count_idle (body : Z -> M unit) :
  (forall j s, body j s = Done tt s) ->
  forall n i s, INT_MIN <= i -> i + Z.of_nat n <= INT_MAX ->
    for_count n i body s = Done tt s.
Proof.
  intros Hbody. induction n as [|n IH]; intros i s Hlo Hhi.
  - reflexivity.
  - simpl. unfold bind. rewrite Hbody. unfold int_add.
    rewrite checked_ok by (unfold in_int; lia).
    apply IH; lia.
Qed.

Lemma for_lt_idle (body : Z -> M unit) hi s :
  (forall j s, body j s = Done tt s) -> hi <= INT_MAX ->
  for_lt 0 hi body s = Done tt s.
Proof.
  intros Hbody Hhi. unfold for_lt.
  apply for_count_idle; [assumption | unfold INT_MIN; lia |].
  unfold INT_MAX in *. lia.
Qed.

Lemma delay_ms_returns ms s : ms <= INT_MAX -> delay_ms ms s = Done tt s.
Proof.
  intros Hms. unfold delay_ms. apply for_lt_idle; [|assumption].
  intros j s'. apply for_lt_idle; [reflexivity | unfold INT_MAX; lia].
Qed.

Lemma delay_ms_sends ms W : ms <= INT_MAX -> sends W (delay_ms ms) [].
Proof.
  intros Hms s. unfold wp. rewrite delay_ms_returns by assumption.
  apply effect_refl.
Qed.

(** ** The firmware on a responsive board *)

Lemma list_ascii_app (a b : string) :
  list_ascii_of_string (a ++ b)
  = list_ascii_of_string a ++ list_ascii_of_string b.
Proof. induction a as [|c a IH]; simpl; [reflexivity | now rewrite IH]. Qed.

Lemma to_int_small x : 0 <= x < 2 ^ 31 -> to_int x = x.
Proof.
  intros Hx. unfold to_int. rewrite to_unsigned_small by lia.
  destruct (Z.ltb_spec x (2 ^ 31)); lia.
Qed.

Lemma record_text_chars moisture temp ph rain water_level :
  list_ascii_of_string (record_text moisture temp ph rain water_level)
  = c_string ("{" ++ quoted "moisture" ++ ":")
    ++ list_ascii_of_string (decimal moisture)
    ++ c_string ("," ++ quoted "temp" ++ ":")
    ++ list_ascii_of_string (decimal temp)
    ++ c_string ("," ++ quoted "ph" ++ ":")
    ++ list_ascii_of_string (decimal ph)
    ++ c_string ("," ++ quoted "rain" ++ ":")
    ++ list_ascii_of_string (decimal rain)
    ++ c_string ("," ++ quoted "water_level" ++ ":")
    ++ list_ascii_of_string (decimal water_level)
    ++ c_string ("}" ++ crlf).
Proof.
  unfold record_text. repeat rewrite list_ascii_app. reflexivity.
Qed.

Lemma percent_bounds raw : 0 <= raw <= 4095 -> 0 <= raw * 100 / 4095 <= 100.
Proof.
  intros H. split; [apply Z.div_pos; lia|]. apply Z.div_le_upper_bound; lia.
Qed.

Lemma moisture_percent_value raw s :
  0 <= raw <= 4095 -> moisture_percent raw s = Done (raw * 100 / 4095) s.
Proof.
  intros Hraw. unfold moisture_percent, int_mul, int_div, bind.
  rewrite checked_ok by (unfold in_int, INT_MIN, INT_MAX; lia).
  change (4095 =? 0) with false. cbv iota.
  rewrite Z.quot_div_nonneg by lia.
  apply checked_ok. pose proof (percent_bounds raw Hraw).
  unfold in_int, INT_MIN, INT_MAX. lia.
Qed.

(** *** Start-up *)

Section Startup.

Variable device : nat -> reg -> Z.
Variable fuel : nat.

Lemma spin_sends (r : reg) (b : Z) (v : bool) (keep : Z -> bool) W :
  driven r = true ->
  responds device fuel r b v ->
  (forall x, Z.testbit x b = v -> keep (to_unsigned x) = false) ->
  sends W (spin fuel (x <- Load device r ;; ret (keep x))) [].
Proof.
  intros Hr Hlive Hkeep. apply (sends_weaken []); [solve_incl|].
  intros s. now apply (spin_flag device fuel r b v).
Qed.

Hypothesis adrdy_ready : responds device fuel ADC_ISR 0 true.
Hypothesis adcal_done : responds device fuel ADC_CR 31 false.

Ltac silent_steps :=
  repeat (apply sends_silent_bind;
          [first [apply set_bits_sends | apply mask_bits_sends
                 | apply Store_sends];
           [discriminate | simpl; tauto]
          | intros _]);
  first [apply set_bits_sends | apply mask_bits_sends | apply Store_sends];
  [discriminate | simpl; tauto].

Lemma init_clocks_sends : sends init_regs (init_clocks device) [].
Proof. unfold init_clocks. silent_steps. Qed.

Lemma init_gpio_sends : sends init_regs (init_gpio device) [].
Proof. unfold init_gpio. silent_steps. Qed.

Lemma init_usart_sends : sends init_regs (init_usart device) [].
Proof. unfold init_usart. silent_steps. Qed.

Lemma init_adc_sends : sends init_regs (init_adc device fuel) [].
Proof.
  unfold init_adc.
  apply sends_silent_bind;
    [apply set_bits_sends; [discriminate | simpl; tauto] | intros _].
  apply sends_silent_bind.
  { apply (spin_sends ADC_CR 31 false); auto.
    intros x Hx. change (to_unsigned (Z.shiftl 1 31)) with (Z.shiftl 1 31).
    rewrite truthy_bit by lia. rewrite to_unsigned_bit by lia. exact Hx. }
  intros _.
  apply sends_silent_bind;
    [apply set_bits_sends; [discriminate | simpl; tauto] | intros _].
  apply (spin_sends ADC_ISR 0 true); auto.
  intros x Hx. rewrite truthy_bit by lia.
  rewrite to_unsigned_bit by lia. now rewrite Hx.
Qed.

Lemma startup_sends : sends init_regs (startup device fuel) [].
Proof.
  unfold startup.
  apply sends_silent_bind; [apply init_clocks_sends | intros _].
  apply sends_silent_bind; [apply init_gpio_sends | intros _].
  apply sends_silent_bind; [apply init_usart_sends | intros _].
  apply sends_silent_bind; [apply init_adc_sends | intros _].
  apply delay_ms_sends. unfold INT_MAX. lia.
Qed.

End Startup.

Section Board.

Variable device : nat -> reg -> Z.
Variable fuel : nat.

Hypothesis txe_ready : responds device fuel USART2_ISR 7 true.
Hypothesis enough_fuel : (12 <= fuel)%nat.

Lemma uart_puts_sends str :
  sends [USART2_TDR] (uart_puts device fuel str) (c_string str).
Proof. intros s. now apply uart_puts_spec. Qed.

Lemma uart_putnum_decimal n :
  INT_MIN < n <= INT_MAX ->
  sends [USART2_TDR] (uart_putnum device fuel n)
        (list_ascii_of_string (decimal n)).
Proof.
  intros Hn s. rewrite <- putnum_text_decimal.
  - now apply uart_putnum_sends.
  - unfold INT_MIN, INT_MAX in Hn. lia.
Qed.

Lemma send_json_sends moisture temp ph rain water_level :
  INT_MIN < moisture <= INT_MAX -> INT_MIN < temp <= INT_MAX ->
  INT_MIN < ph <= INT_MAX -> INT_MIN < rain <= INT_MAX ->
  INT_MIN < water_level <= INT_MAX ->
  sends [USART2_TDR]
        (send_json device fuel moisture temp ph rain water_level)
        (list_ascii_of_string
           (record_text moisture temp ph rain water_level)).
Proof.
  intros H1 H2 H3 H4 H5. unfold send_json.
  rewrite record_text_chars.
  repeat (apply sends_bind;
          [first [apply uart_puts_sends | now apply uart_putnum_decimal]
          | intros _]).
  apply (uart_puts_sends ("}" ++ crlf)).
Qed.

Hypothesis eoc_ready : responds device fuel ADC_ISR 2 true.
Hypothesis adc_12bit : forall t, 0 <= device t ADC_DR <= 4095.

(** *** One conversion *)

Lemma read_adc_spec channel s :
  wp (read_adc device fuel channel) s
     (fun v s' => (exists t, v = device t ADC_DR) /\ 0 <= v <= 4095 /\
                  effect adc_regs [] s s').
Proof.
  unfold read_adc.
  apply wp_bind. eapply wp_mono.
  { apply (Store_sends ADC_CHSELR _ adc_regs); [discriminate | simpl; tauto]. }
  intros u1 s1 H1.
  apply wp_bind. eapply wp_mono.
  { apply (set_bits_sends device ADC_CR _ adc_regs);
      [discriminate | simpl; tauto]. }
  intros u2 s2 H2.
  apply wp_bind. eapply wp_mono.
  { apply (spin_sends device fuel ADC_ISR 2 true _ adc_regs); auto.
    intros x Hx. rewrite truthy_bit by lia.
    rewrite to_unsigned_bit by lia. now rewrite Hx. }
  intros u3 s3 H3.
  pose proof (effect_trans _ _ _ _ _ _
                (effect_trans _ _ _ _ _ _ H1 H2) H3) as [T R].
  unfold wp, bind, Load, ret. simpl.
  pose proof (adc_12bit (clock s3)) as Hr.
  rewrite (to_unsigned_small (device (clock s3) ADC_DR)) by lia.
  rewrite to_int_small by lia.
  split; [now exists (clock s3)|]. split; [assumption|].
  split; simpl; assumption.
Qed.

Lemma read_rain_spec s :
  read_rain device s
  = Done (if Z.testbit (device (clock s) GPIOA_IDR) 4 then 0 else 1)
         (mk_hw (regs s) (tx s) (S (clock s))).
Proof.
  unfold read_rain, bind, Load, ret. simpl driven. cbv iota.
  rewrite truthy_bit by lia. now rewrite to_unsigned_bit by lia.
Qed.

Lemma toggle_led_spec s :
  toggle_led device s
  = Done tt (mk_hw (upd (regs s) GPIOA_ODR
                        (to_unsigned (Z.lxor (regs s GPIOA_ODR) (Z.shiftl 1 5))))
                   (tx s) (S (S (clock s)))).
Proof. reflexivity. Qed.

(** *** One pass of the loop *)

Lemma loop_body_spec s :
  wp (loop_body device fuel) s
     (fun _ s' =>
        (exists t1 t2,
           tx s' = tx s ++ list_ascii_of_string
                    (record_text (device t1 ADC_DR * 100 / 4095) 25 7
                       (if Z.testbit (device t2 GPIOA_IDR) 4 then 0 else 1) 75))
        /\ regs s' GPIOA_ODR
           = to_unsigned (Z.lxor (regs s GPIOA_ODR) (Z.shiftl 1 5))
        /\ forall r, ~ In r loop_regs -> regs s' r = regs s r).
Proof.
  unfold loop_body.
  apply wp_bind. eapply wp_mono; [apply read_adc_spec|].
  intros raw s1 ((t1 & ->) & Hraw & T1 & R1).
  apply wp_bind. eapply wp_mono; [apply read_adc_spec|].
  intros ph_raw s2 (_ & _ & T2 & R2).
  apply wp_bind. eapply wp_of_done; [apply read_rain_spec|].
  apply wp_bind. eapply wp_of_done; [now apply moisture_percent_value|].
  pose proof (percent_bounds _ Hraw) as Hm.
  apply wp_bind. eapply wp_mono.
  { apply send_json_sends; unfold INT_MIN, INT_MAX; try lia.
    destruct (Z.testbit (device (clock s2) GPIOA_IDR) 4); lia. }
  intros u s3 [T3 R3]. simpl in T3, R3.
  apply wp_bind. eapply wp_of_done; [apply toggle_led_spec|].
  unfold wp. rewrite delay_ms_returns by (unfold INT_MAX; lia).
  simpl. split; [|split].
  - exists t1, (clock s2). rewrite T3, T2, T1. now rewrite !app_nil_r.
  - unfold upd. destruct (reg_eq_dec GPIOA_ODR GPIOA_ODR); [|congruence].
    rewrite R3, R2, R1; [reflexivity| | |]; simpl; intuition discriminate.
  - intros r Hr. unfold upd.
    destruct (reg_eq_dec GPIOA_ODR r) as [<-|Hne].
    + exfalso. apply Hr. now left.
    + rewrite R3, R2, R1; [reflexivity| | |];
        unfold loop_regs in Hr; simpl in *; tauto.
Qed.

(** *** The loop and main *)

Lemma led_flip v :
  Z.testbit (to_unsigned (Z.lxor v (Z.shiftl 1 5))) 5 = negb (Z.testbit v 5).
Proof.
  rewrite to_unsigned_bit by lia. rewrite Z.lxor_spec.
  change (Z.testbit (Z.shiftl 1 5) 5) with true.
  now destruct (Z.testbit v 5).
Qed.

Lemma iterations_spec k :
  forall s,
    wp (iterations device fuel k) s
       (fun _ s' =>
          (exists lines,
             length lines = k /\ Forall (is_record device) lines /\
             tx s' = tx s ++ List.concat lines)
          /\ Z.testbit (regs s' GPIOA_ODR) 5
             = xorb (Z.testbit (regs s GPIOA_ODR) 5) (Nat.odd k)
          /\ forall r, ~ In r loop_regs -> regs s' r = regs s r).
Proof.
  induction k as [|k IH]; intros s.
  - apply wp_ret. split; [|split].
    + exists []. repeat split; [constructor | now rewrite app_nil_r].
    + now rewrite xorb_false_r.
    + auto.
  - simpl iterations. apply wp_bind.
    eapply wp_mono; [apply loop_body_spec|].
    intros u s1 ((t1 & t2 & T1) & L1 & R1).
    eapply wp_mono; [apply IH|].
    intros u' s2 ((lines & Hlen & Hrec & T2) & L2 & R2).
    split; [|split].
    + exists (list_ascii_of_string
                (record_text (device t1 ADC_DR * 100 / 4095) 25 7
                   (if Z.testbit (device t2 GPIOA_IDR) 4 then 0 else 1) 75)
              :: lines).
      split; [simpl; now rewrite Hlen|]. split.
      * constructor; [now exists t1, t2 | assumption].
      * rewrite T2, T1. simpl List.concat. now rewrite <- app_assoc.
    + rewrite L2, L1, led_flip. rewrite Nat.odd_succ, <- Nat.negb_odd.
      destruct (Z.testbit (regs s GPIOA_ODR) 5), (Nat.odd k); reflexivity.
    + intros r Hr. rewrite R2, R1; auto.
Qed.

Hypothesis adrdy_ready : responds device fuel ADC_ISR 0 true.
Hypothesis adcal_done : responds device fuel ADC_CR 31 false.

Lemma main_spec k s :
  wp (main device fuel k) s
     (fun _ s' =>
        exists lines,
          length lines = k /\ Forall (is_record device) lines /\
          tx s' = tx s ++ list_ascii_of_string banner ++ List.concat lines).
Proof.
  unfold main. apply wp_bind.
  eapply wp_mono; [apply startup_sends; assumption|].
  intros u s0 [T0 R0]. apply wp_bind.
  eapply wp_mono; [apply uart_puts_sends|].
  intros u1 s1 [T1 R1].
  eapply wp_mono; [apply iterations_spec|].
  intros u2 s2 ((lines & Hlen & Hrec & T2) & _).
  exists lines. repeat split; try assumption.
  rewrite T2, T1, T0, app_nil_r. rewrite <- app_assoc. reflexivity.
Qed.

End Board.

(** ** Occurrences of the banner *)

Lemma occurrences_absent c pat text :
  ~ In c text -> occurrences (c :: pat) text = 0%nat.
Proof.
  induction text as [|b text IH]; intros Hc; simpl.
  - reflexivity.
  - destruct (Ascii.eqb_spec c b) as [->|Hne].
    + exfalso. apply Hc. now left.
    + simpl. apply IH. intros Hin. apply Hc. now right.
Qed.

Lemma banner_then_rest rest :
  occurrences (list_ascii_of_string banner)
              (list_ascii_of_string banner ++ rest)
  = S (occurrences (list_ascii_of_string banner) rest).
Proof. reflexivity. Qed.

Lemma banner_occurs_once rest :
  ~ In "S"%char rest ->
  occurrences (list_ascii_of_string banner)
              (list_ascii_of_string banner ++ rest) = 1%nat.
Proof.
  intros H. rewrite banner_then_rest. f_equal.
  now apply (occurrences_absent "S"%char).
Qed.

Lemma digit_char_not_S d : 0 <= d <= 9 -> digit_char d <> "S"%char.
Proof. intros Hd. digit_cases d H; discriminate. Qed.

Lemma decimal_no_S n :
  - 10 ^ 10 < n < 10 ^ 10 -> ~ In "S"%char (list_ascii_of_string (decimal n)).
Proof.
  intros Hn. rewrite <- putnum_text_decimal by assumption.
  assert (Hd : forall m, ~ In "S"%char (rev (map digit_char (lsd 10 m)))).
  { intros m Hin. apply in_rev, in_map_iff in Hin.
    destruct Hin as (d & Hd & Hin).
    pose proof (lsd_digits 10 m) as Hall.
    rewrite Forall_forall in Hall.
    now apply (digit_char_not_S d (Hall d Hin)). }
  unfold putnum_text. destruct (n =? 0).
  - simpl. intros [H|[]]. discriminate.
  - destruct (n <? 0); [|apply Hd].
    intros [H|H]; [discriminate | now apply (Hd (- n))].
Qed.

Lemma literal_no_S (l : list ascii) :
  forallb (fun c => negb (Ascii.eqb c "S"%char)) l = true ->
  ~ In "S"%char l.
Proof.
  intros H Hin. rewrite forallb_forall in H.
  specialize (H _ Hin). now rewrite Ascii.eqb_refl in H.
Qed.

Lemma record_no_S m r :
  0 <= m <= 100 -> 0 <= r <= 1 ->
  ~ In "S"%char (list_ascii_of_string (record_text m 25 7 r 75)).
Proof.
  intros Hm Hr. rewrite record_text_chars.
  repeat rewrite in_app_iff.
  pose proof (decimal_no_S m ltac:(lia)).
  pose proof (decimal_no_S r ltac:(lia)).
  pose proof (decimal_no_S 25 ltac:(lia)).
  pose proof (decimal_no_S 7 ltac:(lia)).
  pose proof (decimal_no_S 75 ltac:(lia)).
  pose proof (literal_no_S (c_string ("{" ++ quoted "moisture" ++ ":")) eq_refl).
  pose proof (literal_no_S (c_string ("," ++ quoted "temp" ++ ":")) eq_refl).
  pose proof (literal_no_S (c_string ("," ++ quoted "ph" ++ ":")) eq_refl).
  pose proof (literal_no_S (c_string ("," ++ quoted "rain" ++ ":")) eq_refl).
  pose proof (literal_no_S (c_string ("," ++ quoted "water_level" ++ ":")) eq_refl).
  pose proof (literal_no_S (c_string ("}" ++ crlf)) eq_refl).
  tauto.
Qed.

Lemma records_no_S device lines :
  (forall t, 0 <= device t ADC_DR <= 4095) ->
  Forall (is_record device) lines -> ~ In "S"%char (List.concat lines).
Proof.
  intros Hadc. induction 1 as [|line lines (t1 & t2 & ->) _ IH].
  - simpl. auto.
  - cbn [List.concat]. rewrite in_app_iff. intros [H|H]; [|now apply IH].
    revert H. apply record_no_S.
    + pose proof (Hadc t1). split; [apply Z.div_pos; lia|].
      apply Z.div_le_upper_bound; lia.
    + destruct (Z.testbit (device t2 GPIOA_IDR) 4); lia.
Qed.

(** * The claims of the specification *)

(** Discharges [responsive_board] for a [prompt_device]. *)
Ltac prompt_board :=
  unfold responsive_board;
  repeat match goal with
         | |- _ /\ _ => split
         | |- responds _ _ _ _ _ =>
             intro; exists 0%nat; split; [lia | reflexivity]
         | |- forall _ : nat, _ <= _ <= _ => intro; simpl; lia
         | |- (_ <= _)%nat => lia
         end.

(** ** Integer transmit *)

(** X15: round trip of [uart_putnum] for every [int] above [INT_MIN]: the
    call completes, and what it transmitted parses back to the argument. *)
Lemma uart_putnum_roundtrip device fuel n s :
  responsive_board device fuel ->
  INT_MIN < n <= INT_MAX ->
  exists s',
    uart_putnum device fuel n s = Done tt s' /\
    tx s' = tx s ++ list_ascii_of_string (decimal n) /\
    parse_decimal (decimal n) = Some n.
Proof.
  intros (Htxe & _ & _ & _ & _ & Hfuel) Hn.
  destruct (wp_done _ _ _ (uart_putnum_decimal device fuel Htxe Hfuel n Hn s))
    as ([] & s' & Hrun & Htx & _).
  exists s'. repeat split; try assumption. apply parse_decimal_of.
Qed.

(** Runs of [uart_putnum] on sample arguments, on the prompt and on the slow
    board. *)
Lemma uart_putnum_samples :
  transmitted (uart_putnum (prompt_device 0 0) 12 0 reset_state)
  = Some "0"%string /\
  transmitted (uart_putnum (prompt_device 0 0) 12 (-120345) reset_state)
  = Some "-120345"%string /\
  transmitted (uart_putnum (slow_device 0 0) 12 INT_MAX reset_state)
  = Some "2147483647"%string /\
  transmitted (uart_putnum (prompt_device 0 0) 12 INT_MIN reset_state)
  = Some "-"%string.
Proof.
  split; [reflexivity|]. split; [reflexivity|]. split; reflexivity.
Qed.

(** C1 (the code misses it): at [INT_MIN] the round trip fails.  On every
    board whose transmitter becomes ready, [uart_putnum] sends the minus
    sign, then the negation [-num] overflows; the single character sent
    does not parse as an integer. *)
Theorem uart_putnum_INT_MIN_no_roundtrip device fuel s :
  responds device fuel USART2_ISR 7 true ->
  exists s',
    uart_putnum device fuel INT_MIN s = Fault SignedOverflow s' /\
    tx s' = tx s ++ ["-"%char] /\
    parse_decimal (string_of_list_ascii ["-"%char]) = None /\
    parse_decimal (string_of_list_ascii ["-"%char]) <> Some INT_MIN.
Proof.
  intros Htxe.
  destruct (uart_putnum_INT_MIN device fuel Htxe s) as (s' & Hrun & Htx & _).
  exists s'. repeat split; try assumption. discriminate.
Qed.

(** C2 (the code misses it): the negation performed for a negative argument
    overflows at [INT_MIN], so on no board does [uart_putnum INT_MIN] run to
    completion. *)
Theorem uart_putnum_INT_MIN_overflow device fuel s :
  int_neg INT_MIN s = Fault SignedOverflow s /\
  forall s', uart_putnum device fuel INT_MIN s <> Done tt s'.
Proof.
  split; [reflexivity|].
  intros s'. unfold uart_putnum.
  change (INT_MIN =? 0) with false. change (INT_MIN <? 0) with true.
  cbv iota. unfold bind.
  destruct (uart_putchar device fuel "-"%char s); discriminate.
Qed.

(** The buffer half of C2 holds: for every [int], [uart_putnum] ends neither
    in an out-of-bounds access of [buf] nor in a read of a cell it did not
    write. *)
Lemma uart_putnum_buffer_safe device fuel n s :
  responsive_board device fuel ->
  INT_MIN <= n <= INT_MAX ->
  forall s', uart_putnum device fuel n s <> Fault OutOfBounds s' /\
             uart_putnum device fuel n s <> Fault Uninitialised s'.
Proof.
  intros Hb Hn s'.
  destruct (Z.eq_dec n INT_MIN) as [->|Hne].
  - destruct Hb as (Htxe & _).
    destruct (uart_putnum_INT_MIN device fuel Htxe s) as (s1 & -> & _).
    split; discriminate.
  - destruct Hb as (Htxe & _ & _ & _ & _ & Hfuel).
    destruct (wp_done _ _ _
                (uart_putnum_decimal device fuel Htxe Hfuel n ltac:(lia) s))
      as ([] & s1 & -> & _).
    split; discriminate.
Qed.

(** ** Moisture percentage *)

(** C3 as stated fails in its last clause: 2048 is mapped to 50, not 49
    (2048 * 100 = 204800 = 50 * 4095 + 50). *)
Lemma moisture_percent_2048_not_49 :
  moisture_percent 2048 reset_state = Done 50 reset_state /\
  moisture_percent 2048 reset_state <> Done 49 reset_state.
Proof.
  rewrite moisture_percent_value by lia. split; [reflexivity|].
  intros H. inversion H.
Qed.

(** C3 (amended): on raw inputs in [0, 4095] the moisture percentage
    [(raw * 100) / 4095] is monotonically non-decreasing, lies in [0, 100],
    and maps 0 to 0, 4095 to 100 and 2048 to 50. *)
Theorem moisture_percent_monotone_bounded a b s :
  0 <= a <= b -> b <= 4095 ->
  exists pa pb,
    moisture_percent a s = Done pa s /\
    moisture_percent b s = Done pb s /\
    pa <= pb /\ 0 <= pa <= 100 /\ 0 <= pb <= 100 /\
    moisture_percent 0 s = Done 0 s /\
    moisture_percent 4095 s = Done 100 s /\
    moisture_percent 2048 s = Done 50 s.
Proof.
  intros Hab Hb.
  exists (a * 100 / 4095), (b * 100 / 4095).
  rewrite !moisture_percent_value by lia.
  repeat split; try reflexivity; try apply percent_bounds; try lia.
  apply Z.div_le_mono; lia.
Qed.

(** C10: for a raw reading in [0, 4095] the product [moisture_raw * 100] is
    at most 409500, an [int]; the multiplication and the division raise no
    fault and the result is the floor of the exact quotient. *)
Theorem moisture_percent_no_overflow raw s :
  0 <= raw <= 4095 ->
  raw * 100 <= 409500 /\
  in_int (raw * 100) /\
  int_mul raw 100 s = Done (raw * 100) s /\
  moisture_percent raw s = Done (raw * 100 / 4095) s /\
  Z.quot (raw * 100) 4095 = raw * 100 / 4095.
Proof.
  intros Hraw.
  assert (Hin : in_int (raw * 100)) by (unfold in_int, INT_MIN, INT_MAX; lia).
  repeat split; try (destruct Hin; assumption); try lia.
  - unfold int_mul. now apply checked_ok.
  - now apply moisture_percent_value.
  - apply Z.quot_div_nonneg; lia.
Qed.

(** ** Rain flag *)

(** C5: the rain value is the logical negation of the level of pin PA4 (bit 4
    of the input data register): 1 when the pin reads low, 0 when it reads
    high. *)
Theorem read_rain_negates_pin device s :
  exists s',
    read_rain device s
    = Done (Z.b2z (negb (Z.testbit (device (clock s) GPIOA_IDR) 4))) s'.
Proof.
  eexists. unfold read_rain, bind, Load, ret. simpl driven. cbv iota.
  rewrite truthy_bit by lia. rewrite to_unsigned_bit by lia.
  destruct (Z.testbit (device (clock s) GPIOA_IDR) 4); reflexivity.
Qed.

(** ** Record output *)

(** The record line for every assignment of fields above [INT_MIN]. *)
Lemma send_json_record device fuel moisture temp ph rain water_level s :
  responsive_board device fuel ->
  INT_MIN < moisture <= INT_MAX -> INT_MIN < temp <= INT_MAX ->
  INT_MIN < ph <= INT_MAX -> INT_MIN < rain <= INT_MAX ->
  INT_MIN < water_level <= INT_MAX ->
  exists s',
    send_json device fuel moisture temp ph rain water_level s = Done tt s' /\
    tx s' = tx s ++ list_ascii_of_string
                      (record_text moisture temp ph rain water_level).
Proof.
  intros (Htxe & _ & _ & _ & _ & Hfuel) H1 H2 H3 H4 H5.
  destruct (wp_done _ _ _
              (send_json_sends device fuel Htxe Hfuel _ _ _ _ _ H1 H2 H3 H4 H5 s))
    as ([] & s' & Hrun & Htx & _).
  now exists s'.
Qed.

(** The example of the specification: moisture=50, temp=25, ph=7, rain=0,
    water_level=75. *)
Lemma send_json_example :
  exists s',
    send_json (prompt_device 0 0) 12 50 25 7 0 75 reset_state = Done tt s' /\
    tx s' = list_ascii_of_string
              ("{" ++ quoted "moisture" ++ ":50," ++ quoted "temp" ++ ":25," ++
               quoted "ph" ++ ":7," ++ quoted "rain" ++ ":0," ++
               quoted "water_level" ++ ":75}" ++ crlf).
Proof.
  apply (send_json_record (prompt_device 0 0) 12 50 25 7 0 75 reset_state);
    unfold INT_MIN, INT_MAX; try lia.
  prompt_board.
Qed.

(** C4 (the code misses it): with [INT_MIN] in the first field the record is
    cut short.  The opening of the record and a minus sign are sent, then
    [uart_putnum] overflows; no digit and none of the other fields follow. *)
Theorem send_json_INT_MIN_cut_short device fuel temp ph rain water_level s :
  responds device fuel USART2_ISR 7 true ->
  exists s',
    send_json device fuel INT_MIN temp ph rain water_level s
    = Fault SignedOverflow s' /\
    tx s' = tx s ++ list_ascii_of_string ("{" ++ quoted "moisture" ++ ":-").
Proof.
  intros Htxe.
  destruct (wp_done _ _ _
              (uart_puts_spec device fuel Htxe
                 ("{" ++ quoted "moisture" ++ ":") s))
    as ([] & s1 & Hputs & T1 & _).
  destruct (uart_putnum_INT_MIN device fuel Htxe s1) as (s2 & Hnum & T2 & _).
  exists s2. split.
  - unfold send_json, bind. now rewrite Hputs, Hnum.
  - rewrite T2, T1, <- app_assoc. reflexivity.
Qed.

(** ** The status indicator *)

Lemma bits_above v i : 0 <= v < 2 ^ 32 -> 32 <= i -> Z.testbit v i = false.
Proof.
  intros Hv Hi. destruct (Z.eq_dec v 0) as [->|Hnz]; [apply Z.bits_0|].
  apply Z.bits_above_log2; [lia|].
  assert (Z.log2 v < 32) by (apply Z.log2_lt_pow2; lia). lia.
Qed.

(** C9: [GPIOA_ODR ^= (1 << 5)] changes bit 5 of the output data register
    and nothing else: every other bit of the register, every other register
    and the transmit log are as before. *)
Theorem toggle_led_only_bit5 device s :
  0 <= regs s GPIOA_ODR < 2 ^ 32 ->
  exists s',
    toggle_led device s = Done tt s' /\
    (forall i, i <> 5 ->
       Z.testbit (regs s' GPIOA_ODR) i = Z.testbit (regs s GPIOA_ODR) i) /\
    Z.testbit (regs s' GPIOA_ODR) 5 = negb (Z.testbit (regs s GPIOA_ODR) 5) /\
    (forall r, r <> GPIOA_ODR -> regs s' r = regs s r) /\
    tx s' = tx s.
Proof.
  intros Hv. eexists. split; [apply toggle_led_spec|]. cbn [regs tx].
  unfold upd. destruct (reg_eq_dec GPIOA_ODR GPIOA_ODR) as [_|]; [|congruence].
  repeat split.
  - intros i Hi. destruct (Z.lt_ge_cases i 0) as [Hneg|Hnn].
    { now rewrite !Z.testbit_neg_r by assumption. }
    destruct (Z.lt_ge_cases i 32) as [Hlow|Hhigh].
    + rewrite to_unsigned_bit by lia. rewrite Z.lxor_spec.
      rewrite Z.shiftl_1_l, Z.pow2_bits_eqb by lia.
      destruct (Z.eqb_spec 5 i); [lia|]. now rewrite xorb_false_r.
    + rewrite (bits_above _ i Hv Hhigh).
      unfold to_unsigned. apply Z.mod_pow2_bits_high. lia.
  - rewrite to_unsigned_bit by lia. rewrite Z.lxor_spec.
    change (Z.testbit (Z.shiftl 1 5) 5) with true.
    now destruct (Z.testbit (regs s GPIOA_ODR) 5).
  - intros r Hr. destruct (reg_eq_dec GPIOA_ODR r); congruence.
Qed.

(** C6: after [k] completed passes of the loop the indicator bit (bit 5 of
    the output data register) equals its initial value when [k] is even and
    the complement of it when [k] is odd. *)
Theorem led_after_iterations device fuel k s :
  responsive_board device fuel ->
  exists s',
    iterations device fuel k s = Done tt s' /\
    Z.testbit (regs s' GPIOA_ODR) 5
    = if Nat.even k then Z.testbit (regs s GPIOA_ODR) 5
      else negb (Z.testbit (regs s GPIOA_ODR) 5).
Proof.
  intros (Htxe & Heoc & _ & _ & Hadc & Hfuel).
  destruct (wp_done _ _ _
              (iterations_spec device fuel Htxe Hfuel Heoc Hadc k s))
    as ([] & s' & Hrun & _ & Hled & _).
  exists s'. split; [assumption|]. rewrite Hled, <- Nat.negb_even.
  destruct (Nat.even k), (Z.testbit (regs s GPIOA_ODR) 5); reflexivity.
Qed.

(** ** The transmitted record and the banner *)

(** C7 as stated fails in its last clause: the rain field is computed from a
    sensor input too.  Two boards that present the same analog readings and
    differ only in the level of the rain pin transmit different records. *)
Lemma rain_field_follows_pin :
  (forall t r, r <> GPIOA_IDR ->
     prompt_device 2048 16 t r = prompt_device 2048 0 t r) /\
  (exists s1 s2,
     loop_body (prompt_device 2048 16) 12 reset_state = Done tt s1 /\
     loop_body (prompt_device 2048 0) 12 reset_state = Done tt s2 /\
     tx s1 = list_ascii_of_string (record_text 50 25 7 0 75) /\
     tx s2 = list_ascii_of_string (record_text 50 25 7 1 75) /\
     tx s1 <> tx s2).
Proof.
  split.
  { intros t r Hr. destruct r; try reflexivity. congruence. }
  assert (Hb : forall idr, responsive_board (prompt_device 2048 idr) 12).
  { intros idr. prompt_board. }
  destruct (Hb 16) as (Htxe1 & Heoc1 & _ & _ & Hadc1 & Hfuel1).
  destruct (Hb 0) as (Htxe2 & Heoc2 & _ & _ & Hadc2 & Hfuel2).
  destruct (wp_done _ _ _
              (loop_body_spec _ _ Htxe1 Hfuel1 Heoc1 Hadc1 reset_state))
    as ([] & s1 & Hrun1 & (t1 & t2 & T1) & _).
  destruct (wp_done _ _ _
              (loop_body_spec _ _ Htxe2 Hfuel2 Heoc2 Hadc2 reset_state))
    as ([] & s2 & Hrun2 & (t3 & t4 & T2) & _).
  change (prompt_device 2048 16 t1 ADC_DR) with 2048 in T1.
  change (prompt_device 2048 16 t2 GPIOA_IDR) with 16 in T1.
  change (prompt_device 2048 0 t3 ADC_DR) with 2048 in T2.
  change (prompt_device 2048 0 t4 GPIOA_IDR) with 0 in T2.
  change (2048 * 100 / 4095) with 50 in T1, T2.
  change (Z.testbit 16 4) with true in T1.
  change (Z.testbit 0 4) with false in T2.
  cbv iota in T1, T2. change (tx reset_state) with (@nil ascii) in T1, T2.
  rewrite app_nil_l in T1, T2.
  exists s1, s2.
  split; [exact Hrun1|]. split; [exact Hrun2|].
  split; [exact T1|]. split; [exact T2|].
  rewrite T1, T2. intros E.
  apply (f_equal (fun l => nth 39 l "000"%char)) in E.
  vm_compute in E. discriminate E.
Qed.

(** C7 (amended): in every pass of the loop the record transmitted carries
    the constants 25, 7 and 75 in its temp, ph and water_level fields
    whatever the board presents; its moisture field is the percentage of a
    reading of the ADC data register and its rain field is the negated level
    of the rain pin, and these two are the fields computed from sensor
    input. *)
Theorem loop_body_record device fuel s :
  responsive_board device fuel ->
  exists s' t1 t2,
    loop_body device fuel s = Done tt s' /\
    tx s' = tx s ++ list_ascii_of_string
                      (record_text (device t1 ADC_DR * 100 / 4095) 25 7
                         (if Z.testbit (device t2 GPIOA_IDR) 4 then 0 else 1)
                         75).
Proof.
  intros (Htxe & Heoc & _ & _ & Hadc & Hfuel).
  destruct (wp_done _ _ _ (loop_body_spec device fuel Htxe Hfuel Heoc Hadc s))
    as ([] & s' & Hrun & (t1 & t2 & T) & _).
  now exists s', t1, t2.
Qed.

(** * The assumptions are met by concrete boards *)

(** A board that answers only on every third register access is still
    responsive: the busy waits then really loop. *)
Lemma slow_device_responsive adc idr :
  0 <= adc <= 4095 -> responsive_board (slow_device adc idr) 12.
Proof.
  intros Hadc.
  assert (Hd : forall t, exists d,
             (d < 12)%nat /\ ((t + d) mod 3 =? 2)%nat = true).
  { intros t. exists (2 - t mod 3)%nat.
    pose proof (Nat.mod_upper_bound t 3 ltac:(lia)) as Hm.
    split; [lia|]. apply Nat.eqb_eq.
    pose proof (Nat.div_mod_eq t 3) as Ht.
    replace (t + (2 - t mod 3))%nat with (2 + (t / 3) * 3)%nat by lia.
    now rewrite Nat.Div0.mod_add. }
  unfold responsive_board.
  repeat match goal with
         | |- _ /\ _ => split
         | |- responds _ _ _ _ _ =>
             let t := fresh "t" in
             intros t; destruct (Hd t) as (d & Hlt & Hrdy); exists d;
             split; [exact Hlt | unfold slow_device; rewrite Hrdy; reflexivity]
         | |- (_ <= _)%nat => lia
         end.
  intros t. unfold slow_device.
  destruct (t mod 3 =? 2)%nat; simpl; lia.
Qed.

(** On the slow board one character costs three polls and one store. *)
Lemma slow_board_putchar :
  exists s',
    uart_putchar (slow_device 0 0) 12 "A"%char reset_state = Done tt s' /\
    tx s' = ["A"%char] /\ clock s' = 4%nat.
Proof. eexists. split; [reflexivity|]. split; reflexivity. Qed.

Lemma uart_putnum_INT_MIN_no_roundtrip_witness :
  responds (prompt_device 0 0) 12 USART2_ISR 7 true /\
  exists s',
    uart_putnum (prompt_device 0 0) 12 INT_MIN reset_state
    = Fault SignedOverflow s' /\
    tx s' = tx reset_state ++ ["-"%char] /\
    parse_decimal (string_of_list_ascii ["-"%char]) = None /\
    parse_decimal (string_of_list_ascii ["-"%char]) <> Some INT_MIN.
Proof.
  split; [prompt_board|].
  apply (uart_putnum_INT_MIN_no_roundtrip (prompt_device 0 0) 12 reset_state).
  prompt_board.
Defined.

Lemma moisture_percent_monotone_bounded_witness :
  0 <= 1000 <= 3000 /\ 3000 <= 4095 /\
  exists pa pb,
    moisture_percent 1000 reset_state = Done pa reset_state /\
    moisture_percent 3000 reset_state = Done pb reset_state /\
    pa <= pb /\ 0 <= pa <= 100 /\ 0 <= pb <= 100 /\
    moisture_percent 0 reset_state = Done 0 reset_state /\
    moisture_percent 4095 reset_state = Done 100 reset_state /\
    moisture_percent 2048 reset_state = Done 50 reset_state.
Proof.
  split; [lia|]. split; [lia|].
  apply (moisture_percent_monotone_bounded 1000 3000 reset_state); lia.
Defined.

Lemma moisture_percent_no_overflow_witness :
  0 <= 4095 <= 4095 /\
  4095 * 100 <= 409500 /\
  in_int (4095 * 100) /\
  int_mul 4095 100 reset_state = Done (4095 * 100) reset_state /\
  moisture_percent 4095 reset_state = Done (4095 * 100 / 4095) reset_state /\
  Z.quot (4095 * 100) 4095 = 4095 * 100 / 4095.
Proof.
  split; [lia|].
  apply (moisture_percent_no_overflow 4095 reset_state). lia.
Defined.

Lemma send_json_INT_MIN_cut_short_witness :
  responds (prompt_device 0 0) 12 USART2_ISR 7 true /\
  exists s',
    send_json (prompt_device 0 0) 12 INT_MIN 25 7 0 75 reset_state
    = Fault SignedOverflow s' /\
    tx s' = tx reset_state
            ++ list_ascii_of_string ("{" ++ quoted "moisture" ++ ":-").
Proof.
  split; [prompt_board|].
  apply (send_json_INT_MIN_cut_short (prompt_device 0 0) 12 25 7 0 75
           reset_state).
  prompt_board.
Defined.

Lemma toggle_led_only_bit5_witness :
  0 <= regs reset_state GPIOA_ODR < 2 ^ 32 /\
  exists s',
    toggle_led (prompt_device 0 0) reset_state = Done tt s' /\
    (forall i, i <> 5 ->
       Z.testbit (regs s' GPIOA_ODR) i
       = Z.testbit (regs reset_state GPIOA_ODR) i) /\
    Z.testbit (regs s' GPIOA_ODR) 5
    = negb (Z.testbit (regs reset_state GPIOA_ODR) 5) /\
    (forall r, r <> GPIOA_ODR -> regs s' r = regs reset_state r) /\
    tx s' = tx reset_state.
Proof.
  split; [simpl; lia|].
  apply (toggle_led_only_bit5 (prompt_device 0 0) reset_state). simpl. lia.
Defined.

Lemma led_after_iterations_witness :
  responsive_board (slow_device 2048 16) 12 /\
  exists s',
    iterations (slow_device 2048 16) 12 3 reset_state = Done tt s' /\
    Z.testbit (regs s' GPIOA_ODR) 5
    = if Nat.even 3 then Z.testbit (regs reset_state GPIOA_ODR) 5
      else negb (Z.testbit (regs reset_state GPIOA_ODR) 5).
Proof.
  split; [apply slow_device_responsive; lia|].
  apply (led_after_iterations (slow_device 2048 16) 12 3 reset_state).
  apply slow_device_responsive. lia.
Defined.

Lemma loop_body_record_witness :
  responsive_board (prompt_device 2048 0) 12 /\
  exists s' t1 t2,
    loop_body (prompt_device 2048 0) 12 reset_state = Done tt s' /\
    tx s' = tx reset_state
            ++ list_ascii_of_string
                 (record_text (prompt_device 2048 0 t1 ADC_DR * 100 / 4095) 25 7
                    (if Z.testbit (prompt_device 2048 0 t2 GPIOA_IDR) 4
                     then 0 else 1) 75).
Proof.
  split; [prompt_board|].
  apply (loop_body_record (prompt_device 2048 0) 12 reset_state).
  prompt_board.
Defined.

(** * Further properties of the firmware *)

(** ** Busy waits, exactly *)

Lemma bind_assoc {A B C} (m : M A) (f : A -> M B) (g : B -> M C) s :
  bind (bind m f) g s = bind m (fun a => bind (f a) g) s.
Proof. unfold bind. destruct (m s); reflexivity. Qed.

(** A poll loop leaves at the first access at which the flag lets it go, and
    has then made one read per poll. *)
Lemma poll_exact device (r : reg) (keep : Z -> bool) :
  driven r = true ->
  forall d F s,
    (d < F)%nat ->
    (forall j, (j < d)%nat ->
       keep (to_unsigned (device (clock s + j)%nat r)) = true) ->
    keep (to_unsigned (device (clock s + d)%nat r)) = false ->
    while F (fun _ : unit => v <- Load device r ;; ret (keep v))
          (fun _ => ret tt) tt s
    = Done tt (mk_hw (regs s) (tx s) (S (clock s + d))).
Proof.
  intros Hr. induction d as [|d IH]; intros F s HF Hbusy Hfree.
  - destruct F as [|F]; [lia|]. rewrite Nat.add_0_r in Hfree |- *.
    apply (while_false F _ _ tt s (mk_hw (regs s) (tx s) (S (clock s)))).
    unfold bind, Load, ret. now rewrite Hr, Hfree.
  - destruct F as [|F]; [lia|].
    rewrite (while_true F _ _ tt tt s (mk_hw (regs s) (tx s) (S (clock s)))
               (mk_hw (regs s) (tx s) (S (clock s)))).
    + rewrite IH.
      * cbn [regs tx clock]. now rewrite Nat.add_succ_r.
      * lia.
      * intros j Hj. cbn [clock]. specialize (Hbusy (S j) ltac:(lia)).
        now rewrite Nat.add_succ_r in Hbusy.
      * cbn [clock]. now rewrite Nat.add_succ_r in Hfree.
    + unfold bind, Load, ret. rewrite Hr.
      specialize (Hbusy 0%nat ltac:(lia)). rewrite Nat.add_0_r in Hbusy.
      now rewrite Hbusy.
    + reflexivity.
Qed.

(** A poll loop whose flag never lets it go within the fuel runs out. *)
Lemma poll_starved device (r : reg) (keep : Z -> bool) :
  driven r = true ->
  forall F s,
    (forall j, (j < F)%nat ->
       keep (to_unsigned (device (clock s + j)%nat r)) = true) ->
    while F (fun _ : unit => v <- Load device r ;; ret (keep v))
          (fun _ => ret tt) tt s
    = OutOfFuel.
Proof.
  intros Hr. induction F as [|F IH]; intros s Hbusy.
  - reflexivity.
  - rewrite (while_true F _ _ tt tt s (mk_hw (regs s) (tx s) (S (clock s)))
               (mk_hw (regs s) (tx s) (S (clock s)))).
    + apply IH. intros j Hj. cbn [clock].
      specialize (Hbusy (S j) ltac:(lia)).
      now rewrite Nat.add_succ_r in Hbusy.
    + unfold bind, Load, ret. rewrite Hr.
      specialize (Hbusy 0%nat ltac:(lia)). rewrite Nat.add_0_r in Hbusy.
      now rewrite Hbusy.
    + reflexivity.
Qed.

Lemma keep_txe x :
  negb (truthy (Z.land (to_unsigned x) (Z.shiftl 1 7))) = negb (Z.testbit x 7).
Proof. rewrite truthy_bit by lia. now rewrite to_unsigned_bit by lia. Qed.

Lemma keep_eoc x :
  negb (truthy (Z.land (to_unsigned x) (Z.shiftl 1 2))) = negb (Z.testbit x 2).
Proof. rewrite truthy_bit by lia. now rewrite to_unsigned_bit by lia. Qed.

Lemma keep_adcal x :
  truthy (Z.land (to_unsigned x) (to_unsigned (Z.shiftl 1 31)))
  = Z.testbit x 31.
Proof.
  change (to_unsigned (Z.shiftl 1 31)) with (Z.shiftl 1 31).
  rewrite truthy_bit by lia. now rewrite to_unsigned_bit by lia.
Qed.

(** X1: [uart_putchar] writes the character right after the first poll that
    sees TXE set: if TXE reads clear on the first [d] polls and set on the
    next, the call returns after [d + 2] register accesses with exactly [c]
    appended to the output and no register but the transmit data register
    changed. *)
Theorem uart_putchar_waits_for_txe device fuel c d s :
  (d < fuel)%nat ->
  (forall j, (j < d)%nat ->
     Z.testbit (device (clock s + j)%nat USART2_ISR) 7 = false) ->
  Z.testbit (device (clock s + d)%nat USART2_ISR) 7 = true ->
  exists s',
    uart_putchar device fuel c s = Done tt s' /\
    tx s' = tx s ++ [c] /\
    clock s' = (clock s + d + 2)%nat /\
    regs s' USART2_TDR = char_code c /\
    forall r, r <> USART2_TDR -> regs s' r = regs s r.
Proof.
  intros Hd Hbusy Hfree. eexists. split.
  - unfold uart_putchar, spin. unfold bind at 1.
    rewrite (poll_exact device USART2_ISR
               (fun isr => negb (truthy (Z.land isr (Z.shiftl 1 7))))
               eq_refl d fuel s Hd).
    + reflexivity.
    + intros j Hj. rewrite keep_txe. now rewrite Hbusy.
    + rewrite keep_txe. now rewrite Hfree.
  - cbn [tx clock regs]. rewrite to_char_code.
    repeat split.
    + lia.
    + unfold upd. destruct (reg_eq_dec USART2_TDR USART2_TDR); [|congruence].
      apply to_unsigned_small. unfold char_code.
      pose proof (N_ascii_bounded c). lia.
    + intros r Hr. unfold upd.
      destruct (reg_eq_dec USART2_TDR r); congruence.
Qed.

(** X2: there is no timeout in [uart_putchar]: on a board whose transmitter
    never raises TXE the call does not return, however long it is followed,
    and neither does [uart_puts] on a string that has a first character, nor
    [send_json]. *)
Theorem uart_putchar_hangs_without_txe device :
  (forall t, Z.testbit (device t USART2_ISR) 7 = false) ->
  forall fuel s,
    (forall c, uart_putchar device fuel c s = OutOfFuel) /\
    (forall c str, truthy (char_code c) = true ->
       uart_puts device fuel (String c str) s = OutOfFuel) /\
    (forall moisture temp ph rain water_level,
       send_json device fuel moisture temp ph rain water_level s = OutOfFuel).
Proof.
  intros Hdead fuel s.
  assert (H : forall c', uart_putchar device fuel c' s = OutOfFuel).
  { intros c'. unfold uart_putchar, spin. unfold bind at 1.
    rewrite (poll_starved device USART2_ISR
               (fun isr => negb (truthy (Z.land isr (Z.shiftl 1 7))))
               eq_refl fuel s); [reflexivity|].
    intros j _. rewrite keep_txe. now rewrite Hdead. }
  split; [apply H|]. split.
  - intros c str Hc. cbn [uart_puts]. rewrite Hc. unfold bind. now rewrite H.
  - intros. unfold send_json. unfold bind at 1.
    cbn [append uart_puts]. change (truthy (char_code "{"%char)) with true.
    cbv iota. unfold bind at 1. now rewrite H.
Qed.

(** ** read_adc, exactly *)

Lemma bind_Done {A B} (m : M A) (f : A -> M B) s a s1 :
  m s = Done a s1 -> bind m f s = f a s1.
Proof. unfold bind. now intros ->. Qed.

Lemma bind_OutOfFuel {A B} (m : M A) (f : A -> M B) s :
  m s = OutOfFuel -> bind m f s = OutOfFuel.
Proof. unfold bind. now intros ->. Qed.

Lemma to_int_unsigned x : to_int (to_unsigned x) = to_int x.
Proof.
  unfold to_int, to_unsigned. now rewrite Z.mod_mod by discriminate.
Qed.

Lemma shiftl_1_unsigned b : 0 <= b < 32 -> to_unsigned (Z.shiftl 1 b) = 2 ^ b.
Proof.
  intros Hb. rewrite Z.shiftl_1_l. apply to_unsigned_small.
  split; [apply Z.pow_nonneg; lia|]. apply Z.pow_lt_mono_r; lia.
Qed.

(** X3: [read_adc(channel)] selects exactly the requested channel, starts
    the conversion, and returns the data register as it reads right after
    the first poll that sees EOC set; it transmits nothing and writes no
    register but the channel selection and the ADC control register. *)
Theorem read_adc_waits_for_eoc device fuel channel d s :
  0 <= channel < 32 ->
  (d < fuel)%nat ->
  (forall j, (j < d)%nat ->
     Z.testbit (device (3 + clock s + j)%nat ADC_ISR) 2 = false) ->
  Z.testbit (device (3 + clock s + d)%nat ADC_ISR) 2 = true ->
  exists s',
    read_adc device fuel channel s
    = Done (to_int (device (4 + clock s + d)%nat ADC_DR)) s' /\
    regs s' ADC_CHSELR = 2 ^ channel /\
    Z.testbit (regs s' ADC_CR) 2 = true /\
    tx s' = tx s /\
    clock s' = (5 + clock s + d)%nat /\
    forall r, r <> ADC_CHSELR -> r <> ADC_CR -> regs s' r = regs s r.
Proof.
  intros Hch Hd Hbusy Hfree. eexists. split.
  - unfold read_adc, set_bits, spin.
    erewrite bind_Done; [|reflexivity].
    erewrite bind_Done; [|reflexivity].
    erewrite bind_Done.
    2:{ apply (poll_exact device ADC_ISR
                 (fun isr => negb (truthy (Z.land isr (Z.shiftl 1 2))))
                 eq_refl d fuel); [exact Hd| |].
        - intros j Hj. rewrite keep_eoc. specialize (Hbusy j Hj).
          cbn [clock Nat.add] in Hbusy |- *. now rewrite Hbusy.
        - rewrite keep_eoc. cbn [clock Nat.add] in Hfree |- *.
          now rewrite Hfree. }
    unfold bind, Load, ret. cbn [driven clock regs tx].
    rewrite to_int_unsigned. reflexivity.
  - cbn [regs tx clock]. unfold upd.
    repeat split.
    + destruct (reg_eq_dec ADC_CR ADC_CHSELR); [discriminate|].
      destruct (reg_eq_dec ADC_CHSELR ADC_CHSELR); [|congruence].
      now apply shiftl_1_unsigned.
    + destruct (reg_eq_dec ADC_CR ADC_CR); [|congruence].
      rewrite to_unsigned_bit, Z.lor_spec by lia.
      change (Z.testbit (to_unsigned (Z.shiftl 1 2)) 2) with true.
      apply orb_true_r.
    + intros r H1 H2.
      destruct (reg_eq_dec ADC_CR r); [congruence|].
      destruct (reg_eq_dec ADC_CHSELR r); congruence.
Qed.

(** X4: the conversion wait has no timeout either: if the converter never
    raises EOC, [read_adc] does not return however long it is followed, and
    neither does a pass of the main loop, which starts with a conversion. *)
Theorem read_adc_hangs_without_eoc device :
  (forall t, Z.testbit (device t ADC_ISR) 2 = false) ->
  forall fuel channel s,
    read_adc device fuel channel s = OutOfFuel /\
    loop_body device fuel s = OutOfFuel.
Proof.
  intros Hdead fuel channel s.
  assert (H : forall ch s0, read_adc device fuel ch s0 = OutOfFuel).
  { intros ch s0. unfold read_adc, set_bits, spin.
    erewrite bind_Done; [|reflexivity].
    erewrite bind_Done; [|reflexivity].
    apply bind_OutOfFuel.
    apply (poll_starved device ADC_ISR
             (fun isr => negb (truthy (Z.land isr (Z.shiftl 1 2)))) eq_refl).
    intros j _. rewrite keep_eoc. now rewrite Hdead. }
  split; [apply H|].
  unfold loop_body. apply bind_OutOfFuel, H.
Qed.

(** X5: if the ADC never clears ADCAL, [init_adc] does not return however
    long it is followed, so start-up never completes and [main] never gets
    past it to the banner or the loop. *)
Theorem init_adc_hangs_without_calibration device :
  (forall t, Z.testbit (device t ADC_CR) 31 = true) ->
  forall fuel k s,
    init_adc device fuel s = OutOfFuel /\
    startup device fuel s = OutOfFuel /\
    main device fuel k s = OutOfFuel.
Proof.
  intros Hcal fuel k s.
  assert (H : forall s0, init_adc device fuel s0 = OutOfFuel).
  { intros s0. unfold init_adc, set_bits, spin.
    erewrite bind_Done; [|reflexivity].
    apply bind_OutOfFuel.
    apply (poll_starved device ADC_CR
             (fun cr => truthy (Z.land cr (to_unsigned (Z.shiftl 1 31))))
             eq_refl).
    intros j _. rewrite keep_adcal. now rewrite Hcal. }
  assert (Hs : startup device fuel s = OutOfFuel).
  { destruct (wp_done _ _ _ (init_clocks_sends device s))
      as ([] & s1 & E1 & _).
    destruct (wp_done _ _ _ (init_gpio_sends device s1))
      as ([] & s2 & E2 & _).
    destruct (wp_done _ _ _ (init_usart_sends device s2))
      as ([] & s3 & E3 & _).
    unfold startup.
    rewrite (bind_Done (init_clocks device) _ s tt s1 E1).
    rewrite (bind_Done (init_gpio device) _ s1 tt s2 E2).
    rewrite (bind_Done (init_usart device) _ s2 tt s3 E3).
    apply bind_OutOfFuel, H. }
  split; [apply H|]. split; [exact Hs|].
  unfold main. now apply bind_OutOfFuel.
Qed.

(** ** delay_ms and the percentage, on every argument *)

(** X6: [delay_ms] returns for every [int] argument, negative and zero
    included; neither loop counter overflows, no register is accessed and
    nothing is transmitted: the hardware state is exactly as before. *)
Theorem delay_ms_no_effect ms s :
  INT_MIN <= ms <= INT_MAX -> delay_ms ms s = Done tt s.
Proof. intros [_ Hms]. now apply delay_ms_returns. Qed.

(** X7: [(moisture_raw * 100) / 4095] on every [int]: the product is
    representable exactly for readings between -21474836 and 21474836, and
    the result is then the quotient rounded towards zero (so every reading
    from -40 to 40 gives 0); outside that range the multiplication
    overflows. *)
Theorem moisture_percent_defined_range raw s :
  INT_MIN <= raw <= INT_MAX ->
  (-21474836 <= raw <= 21474836 ->
     moisture_percent raw s = Done (Z.quot (raw * 100) 4095) s) /\
  (-40 <= raw <= 40 -> moisture_percent raw s = Done 0 s) /\
  (raw < -21474836 \/ 21474836 < raw ->
     moisture_percent raw s = Fault SignedOverflow s).
Proof.
  intros Hraw. unfold INT_MIN, INT_MAX in Hraw.
  assert (Hdef : -21474836 <= raw <= 21474836 ->
                 moisture_percent raw s = Done (Z.quot (raw * 100) 4095) s).
  { intros Hr. unfold moisture_percent, int_mul, int_div, bind.
    rewrite checked_ok by (unfold in_int, INT_MIN, INT_MAX; lia).
    change (4095 =? 0) with false. cbv iota.
    apply checked_ok. unfold in_int, INT_MIN, INT_MAX.
    assert (Z.abs (Z.quot (raw * 100) 4095) <= Z.abs (raw * 100)).
    { rewrite <- Z.quot_abs by lia. change (Z.abs 4095) with 4095.
      apply Z.quot_le_upper_bound; lia. }
    lia. }
  split; [exact Hdef|]. split.
  - intros Hr. rewrite Hdef by lia. f_equal.
    apply Z.quot_small_iff; [lia|]. lia.
  - intros Hr. unfold moisture_percent, int_mul, bind.
    rewrite checked_overflow; [reflexivity|].
    unfold in_int, INT_MIN, INT_MAX. lia.
Qed.

(** ** Strings *)

Lemma bind_ext {A B} (m : M A) (f g : A -> M B) s :
  (forall a s1, f a s1 = g a s1) -> bind m f s = bind m g s.
Proof. intros H. unfold bind. destruct (m s); auto. Qed.

Lemma c_string_whole_cons c a :
  c_string (String c a) = list_ascii_of_string (String c a) ->
  truthy (char_code c) = true /\ c_string a = list_ascii_of_string a.
Proof.
  simpl. destruct (truthy (char_code c)); [|discriminate].
  intros [= E]. now split.
Qed.

(** X8: sending a concatenation is sending the parts one after the other:
    for a first part without NUL, [uart_puts] of [a ++ b] behaves on every
    board and from every state exactly as [uart_puts a] followed by
    [uart_puts b]. *)
Theorem uart_puts_app device fuel (a b : string) s :
  c_string a = list_ascii_of_string a ->
  uart_puts device fuel (a ++ b) s
  = (uart_puts device fuel a ;; uart_puts device fuel b) s.
Proof.
  revert s. induction a as [|c a IH]; intros s Ha.
  - reflexivity.
  - apply c_string_whole_cons in Ha. destruct Ha as [Hc Ha].
    cbn [append uart_puts]. rewrite Hc.
    rewrite bind_assoc. apply bind_ext. intros u s1. now apply IH.
Qed.

(** X9: [uart_puts] stops at the first NUL: whatever follows a NUL in the
    buffer is never looked at, on any board. *)
Theorem uart_puts_stops_at_nul device fuel (a b : string) s :
  uart_puts device fuel (a ++ String "000" b) s = uart_puts device fuel a s.
Proof.
  revert s. induction a as [|c a IH]; intros s.
  - reflexivity.
  - cbn [append uart_puts]. destruct (truthy (char_code c)); [|reflexivity].
    unfold bind. destruct (uart_putchar device fuel c s); try reflexivity.
    apply IH.
Qed.

(** X10: on a board whose transmitter becomes ready, [uart_puts] returns
    having transmitted exactly the characters of its argument up to the
    first NUL, in order, and having written no register but the transmit
    data register. *)
Theorem uart_puts_transmits device fuel str s :
  responds device fuel USART2_ISR 7 true ->
  exists s',
    uart_puts device fuel str s = Done tt s' /\
    tx s' = tx s ++ c_string str /\
    forall r, r <> USART2_TDR -> regs s' r = regs s r.
Proof.
  intros Htxe.
  destruct (wp_done _ _ _ (uart_puts_spec device fuel Htxe str s))
    as ([] & s' & Hrun & Htx & Hregs).
  exists s'. repeat split; try assumption.
  intros r Hr. apply Hregs. intros [E|[]]. now apply Hr.
Qed.

(** ** The shape of a transmitted number *)

Lemma digit_char_is_digit d : 0 <= d <= 9 -> is_digit (digit_char d) = true.
Proof. intros Hd. digit_cases d H; reflexivity. Qed.

Lemma digits_are_digits k m :
  forallb is_digit (rev (map digit_char (lsd k m))) = true.
Proof.
  apply forallb_forall. intros c Hin.
  apply in_rev, in_map_iff in Hin. destruct Hin as (d & <- & Hin).
  pose proof (lsd_digits k m) as Hall. rewrite Forall_forall in Hall.
  apply digit_char_is_digit, Hall, Hin.
Qed.

Lemma digits_length k m :
  0 < m -> (1 <= length (rev (map digit_char (lsd (S k) m))) <= S k)%nat.
Proof.
  intros Hm. rewrite length_rev, length_map.
  pose proof (lsd_length (S k) m). split; [|assumption].
  simpl. destruct (Z.ltb_spec 0 m); [simpl; lia | lia].
Qed.

(** X11: for every [int] above [INT_MIN], [uart_putnum] transmits between 1
    and 11 characters: decimal digits only for a non-negative argument, and
    a minus sign followed by at least one digit for a negative one. *)
Theorem uart_putnum_shape device fuel n s :
  responsive_board device fuel ->
  INT_MIN < n <= INT_MAX ->
  exists s' out,
    uart_putnum device fuel n s = Done tt s' /\
    tx s' = tx s ++ out /\
    (1 <= length out <= 11)%nat /\
    (0 <= n -> forallb is_digit out = true) /\
    (n < 0 -> exists ds, out = "-"%char :: ds /\ ds <> [] /\
                         forallb is_digit ds = true).
Proof.
  intros (Htxe & _ & _ & _ & _ & Hfuel) Hn.
  destruct (wp_done _ _ _ (uart_putnum_sends device fuel Htxe Hfuel n s Hn))
    as ([] & s' & Hrun & Htx & _).
  exists s', (putnum_text n). split; [assumption|]. split; [assumption|].
  unfold putnum_text.
  destruct (Z.eqb_spec n 0) as [->|Hnz].
  - split; [simpl; lia|]. split; [reflexivity | lia].
  - destruct (Z.ltb_spec n 0) as [Hneg|Hpos].
    + pose proof (digits_length 9 (- n) ltac:(lia)) as Hlen.
      split; [cbn [length]; lia|]. split; [lia|].
      intros _. exists (rev (map digit_char (lsd 10 (- n)))).
      split; [reflexivity|]. split; [|apply digits_are_digits].
      intros E. rewrite E in Hlen. cbn [length] in Hlen. lia.
    + pose proof (digits_length 9 n ltac:(lia)) as Hlen.
      split; [lia|]. split; [intros _; apply digits_are_digits | lia].
Qed.

(** ** The record line, read back *)

Lemma decimal_number_chars n :
  - 10 ^ 10 < n < 10 ^ 10 ->
  forallb number_char (list_ascii_of_string (decimal n)) = true.
Proof.
  intros Hn. rewrite <- putnum_text_decimal by assumption.
  assert (Hd : forall m,
             forallb number_char (rev (map digit_char (lsd 10 m))) = true).
  { intros m. apply forallb_forall. intros c Hc.
    pose proof (digits_are_digits 10 m) as Hall.
    rewrite forallb_forall in Hall. unfold number_char.
    now rewrite (Hall c Hc). }
  unfold putnum_text. destruct (n =? 0); [reflexivity|].
  destruct (n <? 0); [|apply Hd].
  cbn [forallb]. now rewrite Hd.
Qed.

Lemma lacks_number_char n c :
  - 10 ^ 10 < n < 10 ^ 10 -> number_char c = false ->
  ~ In c (list_ascii_of_string (decimal n)).
Proof.
  intros Hn Hc Hin. pose proof (decimal_number_chars n Hn) as Hall.
  rewrite forallb_forall in Hall. specialize (Hall c Hin). congruence.
Qed.

Lemma literal_lacks c (l : list ascii) :
  forallb (fun x => negb (Ascii.eqb x c)) l = true -> ~ In c l.
Proof.
  intros H Hin. rewrite forallb_forall in H.
  specialize (H _ Hin). now rewrite Ascii.eqb_refl in H.
Qed.

Lemma strip_app pre rest : strip pre (pre ++ rest) = Some rest.
Proof.
  induction pre as [|a pre IH]; simpl; [reflexivity|].
  now rewrite Ascii.eqb_refl.
Qed.

Lemma span_number_app num c rest :
  forallb number_char num = true -> number_char c = false ->
  span_number (num ++ c :: rest) = (num, c :: rest).
Proof.
  intros Hnum Hc. induction num as [|a num IH]; simpl.
  - now rewrite Hc.
  - simpl in Hnum. apply andb_prop in Hnum. destruct Hnum as [Ha Hnum].
    rewrite Ha, (IH Hnum). reflexivity.
Qed.

Lemma read_field_decimal key n rest c r :
  - 10 ^ 10 < n < 10 ^ 10 -> rest = c :: r -> number_char c = false ->
  read_field key (c_string key ++ list_ascii_of_string (decimal n) ++ rest)
  = Some (n, rest).
Proof.
  intros Hn -> Hc. unfold read_field. rewrite strip_app.
  rewrite span_number_app by (try apply decimal_number_chars; assumption).
  rewrite string_of_list_ascii_of_string, parse_decimal_of. reflexivity.
Qed.

Lemma parse_record_text moisture temp ph rain water_level :
  - 10 ^ 10 < moisture < 10 ^ 10 -> - 10 ^ 10 < temp < 10 ^ 10 ->
  - 10 ^ 10 < ph < 10 ^ 10 -> - 10 ^ 10 < rain < 10 ^ 10 ->
  - 10 ^ 10 < water_level < 10 ^ 10 ->
  parse_record (list_ascii_of_string
                  (record_text moisture temp ph rain water_level))
  = Some (moisture, temp, ph, rain, water_level).
Proof.
  intros H1 H2 H3 H4 H5. rewrite record_text_chars. unfold parse_record.
  erewrite (read_field_decimal _ moisture);
    [|assumption | reflexivity | reflexivity]. cbv beta iota.
  erewrite (read_field_decimal _ temp);
    [|assumption | reflexivity | reflexivity]. cbv beta iota.
  erewrite (read_field_decimal _ ph);
    [|assumption | reflexivity | reflexivity]. cbv beta iota.
  erewrite (read_field_decimal _ rain);
    [|assumption | reflexivity | reflexivity]. cbv beta iota.
  erewrite (read_field_decimal _ water_level);
    [|assumption | reflexivity | reflexivity]. cbv beta iota.
  destruct (list_eq_dec ascii_dec (c_string ("}" ++ crlf))
              (c_string ("}" ++ crlf))); [reflexivity | congruence].
Qed.

Lemma int_in_decimal_range n : INT_MIN < n <= INT_MAX -> - 10 ^ 10 < n < 10 ^ 10.
Proof. unfold INT_MIN, INT_MAX. lia. Qed.

(** X12: for every assignment of the five fields above [INT_MIN],
    [send_json] transmits exactly the record line, with every field in
    decimal, and writes no register but the transmit data register. *)
Theorem send_json_transmits_record
    device fuel moisture temp ph rain water_level s :
  responsive_board device fuel ->
  INT_MIN < moisture <= INT_MAX -> INT_MIN < temp <= INT_MAX ->
  INT_MIN < ph <= INT_MAX -> INT_MIN < rain <= INT_MAX ->
  INT_MIN < water_level <= INT_MAX ->
  exists s',
    send_json device fuel moisture temp ph rain water_level s = Done tt s' /\
    tx s' = tx s ++ list_ascii_of_string
                      (record_text moisture temp ph rain water_level) /\
    forall r, r <> USART2_TDR -> regs s' r = regs s r.
Proof.
  intros (Htxe & _ & _ & _ & _ & Hfuel) H1 H2 H3 H4 H5.
  destruct (wp_done _ _ _
              (send_json_sends device fuel Htxe Hfuel _ _ _ _ _ H1 H2 H3 H4 H5 s))
    as ([] & s' & Hrun & Htx & Hregs).
  exists s'. repeat split; try assumption.
  intros r Hr. apply Hregs. intros [E|[]]. now apply Hr.
Qed.

(** X13: what [send_json] transmits can be read back: a reader that expects
    the five keys in order and takes each number up to the next character
    that is neither a digit nor a minus sign recovers exactly the five
    arguments. *)
Theorem send_json_read_back
    device fuel moisture temp ph rain water_level s :
  responsive_board device fuel ->
  INT_MIN < moisture <= INT_MAX -> INT_MIN < temp <= INT_MAX ->
  INT_MIN < ph <= INT_MAX -> INT_MIN < rain <= INT_MAX ->
  INT_MIN < water_level <= INT_MAX ->
  exists s' line,
    send_json device fuel moisture temp ph rain water_level s = Done tt s' /\
    tx s' = tx s ++ line /\
    parse_record line = Some (moisture, temp, ph, rain, water_level).
Proof.
  intros (Htxe & _ & _ & _ & _ & Hfuel) H1 H2 H3 H4 H5.
  destruct (wp_done _ _ _
              (send_json_sends device fuel Htxe Hfuel _ _ _ _ _ H1 H2 H3 H4 H5 s))
    as ([] & s' & Hrun & Htx & _).
  exists s', (list_ascii_of_string
                (record_text moisture temp ph rain water_level)).
  split; [assumption|]. split; [assumption|].
  apply parse_record_text; now apply int_in_decimal_range.
Qed.

(** X14: every record is one line: what [send_json] transmits ends in CR LF
    and has no CR and no LF before that, so a reader that splits the stream
    at line ends gets whole records. *)
Theorem send_json_one_line
    device fuel moisture temp ph rain water_level s :
  responsive_board device fuel ->
  INT_MIN < moisture <= INT_MAX -> INT_MIN < temp <= INT_MAX ->
  INT_MIN < ph <= INT_MAX -> INT_MIN < rain <= INT_MAX ->
  INT_MIN < water_level <= INT_MAX ->
  exists s' body,
    send_json device fuel moisture temp ph rain water_level s = Done tt s' /\
    tx s' = tx s ++ body ++ [CR; LF] /\
    ~ In CR body /\ ~ In LF body.
Proof.
  intros (Htxe & _ & _ & _ & _ & Hfuel) H1 H2 H3 H4 H5.
  destruct (wp_done _ _ _
              (send_json_sends device fuel Htxe Hfuel _ _ _ _ _ H1 H2 H3 H4 H5 s))
    as ([] & s' & Hrun & Htx & _).
  exists s',
    (c_string ("{" ++ quoted "moisture" ++ ":")
     ++ list_ascii_of_string (decimal moisture)
     ++ c_string ("," ++ quoted "temp" ++ ":")
     ++ list_ascii_of_string (decimal temp)
     ++ c_string ("," ++ quoted "ph" ++ ":")
     ++ list_ascii_of_string (decimal ph)
     ++ c_string ("," ++ quoted "rain" ++ ":")
     ++ list_ascii_of_string (decimal rain)
     ++ c_string ("," ++ quoted "water_level" ++ ":")
     ++ list_ascii_of_string (decimal water_level)
     ++ ["}"%char]).
  split; [assumption|]. split.
  - rewrite Htx, record_text_chars. f_equal.
    repeat rewrite <- app_assoc. reflexivity.
  - apply int_in_decimal_range in H1, H2, H3, H4, H5.
    split; repeat rewrite in_app_iff;
      [ pose proof (fun n H => lacks_number_char n CR H eq_refl) as Hdec
      | pose proof (fun n H => lacks_number_char n LF H eq_refl) as Hdec ];
      pose proof (Hdec moisture H1); pose proof (Hdec temp H2);
      pose proof (Hdec ph H3); pose proof (Hdec rain H4);
      pose proof (Hdec water_level H5);
      match goal with
      | |- ~ (In ?c _ \/ _) =>
          pose proof (literal_lacks c
                        (c_string ("{" ++ quoted "moisture" ++ ":")) eq_refl);
          pose proof (literal_lacks c
                        (c_string ("," ++ quoted "temp" ++ ":")) eq_refl);
          pose proof (literal_lacks c
                        (c_string ("," ++ quoted "ph" ++ ":")) eq_refl);
          pose proof (literal_lacks c
                        (c_string ("," ++ quoted "rain" ++ ":")) eq_refl);
          pose proof (literal_lacks c
                        (c_string ("," ++ quoted "water_level" ++ ":")) eq_refl);
          pose proof (literal_lacks c ["}"%char] eq_refl)
      end; tauto.
Qed.

(** ** The indicator and the stream of records *)

Lemma to_unsigned_testbit x n :
  0 <= n -> Z.testbit (to_unsigned x) n = (n <? 32) && Z.testbit x n.
Proof.
  intros Hn. unfold to_unsigned. destruct (Z.ltb_spec n 32).
  - now rewrite Z.mod_pow2_bits_low by lia.
  - now rewrite Z.mod_pow2_bits_high by lia.
Qed.

Lemma lxor_twice_unsigned v b :
  0 <= v < 2 ^ 32 ->
  to_unsigned (Z.lxor (to_unsigned (Z.lxor v b)) b) = v.
Proof.
  intros Hv. apply Z.bits_inj'. intros n Hn.
  rewrite to_unsigned_testbit, Z.lxor_spec, to_unsigned_testbit, Z.lxor_spec
    by assumption.
  destruct (Z.ltb_spec n 32) as [Hlow|Hhigh]; simpl.
  - now rewrite xorb_assoc, xorb_nilpotent, xorb_false_r.
  - symmetry. now apply bits_above.
Qed.

(** X17: toggling the indicator twice restores the whole output data
    register, not only bit 5: after two toggles every register holds what it
    held before and nothing has been transmitted. *)
Theorem toggle_led_twice device s :
  0 <= regs s GPIOA_ODR < 2 ^ 32 ->
  exists s',
    (toggle_led device ;; toggle_led device) s = Done tt s' /\
    (forall r, regs s' r = regs s r) /\
    tx s' = tx s.
Proof.
  intros Hv. eexists. split.
  - unfold bind. rewrite toggle_led_spec. rewrite toggle_led_spec. reflexivity.
  - cbn [regs tx]. split; [|reflexivity].
    intros r. unfold upd.
    destruct (reg_eq_dec GPIOA_ODR r) as [<-|Hne]; [|reflexivity].
    destruct (reg_eq_dec GPIOA_ODR GPIOA_ODR); [|congruence].
    now apply lxor_twice_unsigned.
Qed.

Lemma iterations_snoc device fuel k s :
  iterations device fuel (S k) s
  = (iterations device fuel k ;; loop_body device fuel) s.
Proof.
  revert s. induction k as [|k IH]; intros s.
  - cbn [iterations]. unfold bind, ret.
    destruct (loop_body device fuel s) as [[] s'| |]; reflexivity.
  - change (iterations device fuel (S (S k)))
      with (loop_body device fuel ;; iterations device fuel (S k)).
    change (iterations device fuel (S k))
      with (loop_body device fuel ;; iterations device fuel k) at 2.
    rewrite bind_assoc. apply bind_ext. intros u s1. apply IH.
Qed.

(** X18: the output only grows, one record per pass: followed through one
    more pass of the loop, [main] has transmitted what it had transmitted
    before and one more record line after it. *)
Theorem main_output_grows device fuel k s :
  responsive_board device fuel ->
  exists sk sk1 line,
    main device fuel k s = Done tt sk /\
    main device fuel (S k) s = Done tt sk1 /\
    is_record device line /\
    tx sk1 = tx sk ++ line.
Proof.
  intros (Htxe & Heoc & Hrdy & Hcal & Hadc & Hfuel).
  destruct (wp_done _ _ _ (startup_sends device fuel Hrdy Hcal s))
    as ([] & s0 & E0 & _).
  destruct (wp_done _ _ _ (uart_puts_spec device fuel Htxe banner s0))
    as ([] & s1 & E1 & _).
  destruct (wp_done _ _ _
              (iterations_spec device fuel Htxe Hfuel Heoc Hadc k s1))
    as ([] & sk & Ek & _).
  destruct (wp_done _ _ _ (loop_body_spec device fuel Htxe Hfuel Heoc Hadc sk))
    as ([] & sk1 & El & (t1 & t2 & T) & _).
  exists sk, sk1,
    (list_ascii_of_string
       (record_text (device t1 ADC_DR * 100 / 4095) 25 7
          (if Z.testbit (device t2 GPIOA_IDR) 4 then 0 else 1) 75)).
  split; [|split; [|split]].
  - unfold main.
    rewrite (bind_Done (startup device fuel) _ s tt s0 E0).
    now rewrite (bind_Done (uart_puts device fuel banner) _ s0 tt s1 E1).
  - unfold main.
    rewrite (bind_Done (startup device fuel) _ s tt s0 E0).
    rewrite (bind_Done (uart_puts device fuel banner) _ s0 tt s1 E1).
    rewrite iterations_snoc.
    now rewrite (bind_Done (iterations device fuel k) _ s1 tt sk Ek).
  - now exists t1, t2.
  - exact T.
Qed.

(** ** Pin configuration *)

Lemma upd_same f r v : upd f r v r = v.
Proof. unfold upd. destruct (reg_eq_dec r r); congruence. Qed.

Lemma upd_other f r v r' : r <> r' -> upd f r v r' = f r'.
Proof. intros H. unfold upd. destruct (reg_eq_dec r r'); congruence. Qed.

Lemma mod4_bits y :
  y mod 4 = Z.b2z (Z.testbit y 0) + 2 * Z.b2z (Z.testbit y 1).
Proof.
  change 4 with (2 * 2). rewrite Z.rem_mul_r by lia.
  rewrite <- (Z.bit0_mod y), <- (Z.bit0_mod (y / 2)).
  rewrite Z.div2_bits by lia. reflexivity.
Qed.

Lemma pin_mode_bits moder pin :
  0 <= pin ->
  pin_mode moder pin
  = Z.b2z (Z.testbit moder (2 * pin))
    + 2 * Z.b2z (Z.testbit moder (2 * pin + 1)).
Proof.
  intros Hp. unfold pin_mode. change 3 with (Z.ones 2).
  rewrite Z.land_ones by lia. change (2 ^ 2) with 4.
  rewrite mod4_bits, !Z.shiftr_spec by lia.
  now rewrite Z.add_0_l, (Z.add_comm 1).
Qed.

Ltac bit_cases i H :=
  assert (i = 0 \/ i = 1 \/ i = 2 \/ i = 3 \/ i = 4 \/ i = 5 \/ i = 6 \/
          i = 7 \/ i = 8 \/ i = 9 \/ i = 10 \/ i = 11 \/ 12 <= i < 32)
    as H by lia;
  repeat (destruct H as [H|H]); try subst i.

(** The mode register after the six read-modify-write steps of [init_gpio]:
    its low twelve bits are those of 0x4AF, the others are as before. *)
Lemma init_gpio_moder_bits m i :
  0 <= i < 32 ->
  Z.testbit
    (to_unsigned (Z.land
      (to_unsigned (Z.lor
        (to_unsigned (Z.land
          (to_unsigned (Z.lor
            (to_unsigned (Z.land
              (to_unsigned (Z.lor m
                 (to_unsigned (Z.lor (Z.shiftl 3 0) (Z.shiftl 3 2)))))
              (to_unsigned (Z.lnot (Z.lor (Z.shiftl 3 4) (Z.shiftl 3 6))))))
            (to_unsigned (Z.lor (Z.shiftl 2 4) (Z.shiftl 2 6)))))
          (to_unsigned (Z.lnot (Z.shiftl 3 10)))))
        (to_unsigned (Z.shiftl 1 10))))
      (to_unsigned (Z.lnot (Z.shiftl 3 8))))) i
  = if i <? 12 then Z.testbit 1199 i else Z.testbit m i.
Proof.
  intros Hi.
  repeat (rewrite ?to_unsigned_testbit, ?Z.land_spec, ?Z.lor_spec,
            ?Z.lnot_spec by lia).
  generalize (Z.testbit m i). intros b.
  bit_cases i H; try (destruct b; reflexivity).
  destruct (Z.ltb_spec i 32); [|lia]. destruct (Z.ltb_spec i 12); [lia|].
  rewrite !Z.shiftl_spec by lia.
  replace (Z.testbit 3 (i - 0)) with false
    by (symmetry; apply Z.bits_above_log2; simpl; lia).
  replace (Z.testbit 3 (i - 2)) with false
    by (symmetry; apply Z.bits_above_log2; simpl; lia).
  replace (Z.testbit 3 (i - 4)) with false
    by (symmetry; apply Z.bits_above_log2; simpl; lia).
  replace (Z.testbit 3 (i - 6)) with false
    by (symmetry; apply Z.bits_above_log2; simpl; lia).
  replace (Z.testbit 3 (i - 8)) with false
    by (symmetry; apply Z.bits_above_log2; simpl; lia).
  replace (Z.testbit 3 (i - 10)) with false
    by (symmetry; apply Z.bits_above_log2; simpl; lia).
  replace (Z.testbit 2 (i - 4)) with false
    by (symmetry; apply Z.bits_above_log2; simpl; lia).
  replace (Z.testbit 2 (i - 6)) with false
    by (symmetry; apply Z.bits_above_log2; simpl; lia).
  replace (Z.testbit 1 (i - 10)) with false
    by (symmetry; apply Z.bits_above_log2; simpl; lia).
  destruct b; reflexivity.
Qed.

Lemma set_bits_run device r v s :
  driven r = false ->
  (if reg_eq_dec r USART2_TDR then true else false) = false ->
  set_bits device r v s
  = Done tt (mk_hw (upd (regs s) r
                        (to_unsigned (Z.lor (regs s r) (to_unsigned v))))
                   (tx s) (S (S (clock s)))).
Proof.
  intros Hd Hr. unfold set_bits, bind, Load, Store. rewrite Hd.
  cbn [regs tx clock]. now destruct (reg_eq_dec r USART2_TDR).
Qed.

Lemma mask_bits_run device r v s :
  driven r = false ->
  (if reg_eq_dec r USART2_TDR then true else false) = false ->
  mask_bits device r v s
  = Done tt (mk_hw (upd (regs s) r
                        (to_unsigned (Z.land (regs s r) (to_unsigned v))))
                   (tx s) (S (S (clock s)))).
Proof.
  intros Hd Hr. unfold mask_bits, bind, Load, Store. rewrite Hd.
  cbn [regs tx clock]. now destruct (reg_eq_dec r USART2_TDR).
Qed.

Ltac upd_simpl :=
  repeat match goal with
         | |- context [upd ?f ?r ?v ?r'] =>
             first [ rewrite (upd_same f r v)
                   | rewrite (upd_other f r v r') by discriminate ]
         end.

Ltac latch_step :=
  match goal with
  | |- bind (set_bits ?d ?r ?v) ?f ?s = _ =>
      rewrite (bind_Done (set_bits d r v) f s tt _
                 (set_bits_run d r v s eq_refl eq_refl))
  | |- bind (mask_bits ?d ?r ?v) ?f ?s = _ =>
      rewrite (bind_Done (mask_bits d r v) f s tt _
                 (mask_bits_run d r v s eq_refl eq_refl))
  end;
  cbn [regs tx clock]; upd_simpl.

Lemma init_gpio_effect device s :
  exists s',
    init_gpio device s = Done tt s' /\
    pin_mode (regs s' GPIOA_MODER) 0 = 3 /\
    pin_mode (regs s' GPIOA_MODER) 1 = 3 /\
    pin_mode (regs s' GPIOA_MODER) 2 = 2 /\
    pin_mode (regs s' GPIOA_MODER) 3 = 2 /\
    pin_mode (regs s' GPIOA_MODER) 4 = 0 /\
    pin_mode (regs s' GPIOA_MODER) 5 = 1 /\
    (forall pin, 6 <= pin <= 15 ->
       pin_mode (regs s' GPIOA_MODER) pin = pin_mode (regs s GPIOA_MODER) pin) /\
    regs s' GPIOA_AFR0 = to_unsigned (Z.lor (regs s GPIOA_AFR0) 4352) /\
    regs s' GPIOA_PUPDR = to_unsigned (Z.lor (regs s GPIOA_PUPDR) 256) /\
    tx s' = tx s /\
    forall r, r <> GPIOA_MODER -> r <> GPIOA_AFR0 -> r <> GPIOA_PUPDR ->
              regs s' r = regs s r.
Proof.
  eexists. split.
  - unfold init_gpio. do 7 latch_step.
    rewrite set_bits_run by reflexivity. cbn [regs tx clock]. upd_simpl.
    reflexivity.
  - cbn [regs tx clock]. upd_simpl.
    pose proof (init_gpio_moder_bits (regs s GPIOA_MODER)) as Hbits.
    match goal with |- pin_mode ?X 0 = 3 /\ _ => set (M := X) in * end.
    assert (Hlow : forall pin, 0 <= pin <= 5 ->
              pin_mode M pin
              = Z.b2z (Z.testbit 1199 (2 * pin))
                + 2 * Z.b2z (Z.testbit 1199 (2 * pin + 1))).
    { intros pin Hp. rewrite pin_mode_bits, !Hbits by lia.
      destruct (Z.ltb_spec (2 * pin) 12), (Z.ltb_spec (2 * pin + 1) 12);
        try lia; reflexivity. }
    split; [now rewrite Hlow by lia|]. split; [now rewrite Hlow by lia|].
    split; [now rewrite Hlow by lia|]. split; [now rewrite Hlow by lia|].
    split; [now rewrite Hlow by lia|]. split; [now rewrite Hlow by lia|].
    split.
    { intros pin Hp. rewrite !pin_mode_bits, !Hbits by lia.
      destruct (Z.ltb_spec (2 * pin) 12), (Z.ltb_spec (2 * pin + 1) 12);
        try lia; reflexivity. }
    split; [reflexivity|]. split; [reflexivity|]. split; [reflexivity|].
    intros r H1 H2 H3. now rewrite !upd_other by congruence.
Qed.

(** X19: [init_gpio] leaves the pins in their intended modes whatever the
    mode register held before: PA0 and PA1 analog (3), PA2 and PA3 alternate
    function (2), PA4 input (0), PA5 output (1), the modes of pins 6 to 15
    unchanged.  The alternate-function and pull-up registers only have bits
    set (AFR0 bits 8 and 12, PUPDR bit 8); nothing is transmitted and no other
    register is written. *)
Theorem init_gpio_pin_modes device s :
  exists s',
    init_gpio device s = Done tt s' /\
    pin_mode (regs s' GPIOA_MODER) 0 = 3 /\
    pin_mode (regs s' GPIOA_MODER) 1 = 3 /\
    pin_mode (regs s' GPIOA_MODER) 2 = 2 /\
    pin_mode (regs s' GPIOA_MODER) 3 = 2 /\
    pin_mode (regs s' GPIOA_MODER) 4 = 0 /\
    pin_mode (regs s' GPIOA_MODER) 5 = 1 /\
    (forall pin, 6 <= pin <= 15 ->
       pin_mode (regs s' GPIOA_MODER) pin = pin_mode (regs s GPIOA_MODER) pin) /\
    regs s' GPIOA_AFR0 = to_unsigned (Z.lor (regs s GPIOA_AFR0) 4352) /\
    regs s' GPIOA_PUPDR = to_unsigned (Z.lor (regs s GPIOA_PUPDR) 256) /\
    tx s' = tx s /\
    forall r, r <> GPIOA_MODER -> r <> GPIOA_AFR0 -> r <> GPIOA_PUPDR ->
              regs s' r = regs s r.
Proof. exact (init_gpio_effect device s). Qed.

(** ** uart_putnum on every board *)

(** A poll loop either runs out, and then the flag held it back on every one
    of its polls, or leaves at some poll within the fuel. *)
Lemma poll_outcome device (r : reg) (keep : Z -> bool) :
  driven r = true ->
  forall F s,
    (while F (fun _ : unit => v <- Load device r ;; ret (keep v))
           (fun _ => ret tt) tt s = OutOfFuel /\
     forall j, (j < F)%nat ->
       keep (to_unsigned (device (clock s + j)%nat r)) = true) \/
    (exists d,
       (d < F)%nat /\
       while F (fun _ : unit => v <- Load device r ;; ret (keep v))
             (fun _ => ret tt) tt s
       = Done tt (mk_hw (regs s) (tx s) (S (clock s + d)))).
Proof.
  intros Hr. induction F as [|F IH]; intros s.
  - left. split; [reflexivity | intros j Hj; lia].
  - set (s1 := mk_hw (regs s) (tx s) (S (clock s))).
    destruct (keep (to_unsigned (device (clock s) r))) eqn:Hk.
    + assert (Hstep : forall o,
                while F (fun _ : unit => v <- Load device r ;; ret (keep v))
                      (fun _ => ret tt) tt s1 = o ->
                while (S F) (fun _ : unit => v <- Load device r ;; ret (keep v))
                      (fun _ => ret tt) tt s = o).
      { intros o <-. apply (while_true F _ _ tt tt s s1 s1); [|reflexivity].
        unfold bind, Load, ret. now rewrite Hr, Hk. }
      destruct (IH s1) as [[E Hbusy]|(d & Hd & E)].
      * left. split; [now apply Hstep|].
        intros [|j] Hj; [now rewrite Nat.add_0_r|].
        specialize (Hbusy j ltac:(lia)). cbn [clock s1] in Hbusy.
        now rewrite Nat.add_succ_r.
      * right. exists (S d). split; [lia|].
        rewrite (Hstep _ E). cbn [regs tx clock s1].
        now rewrite Nat.add_succ_r.
    + right. exists 0%nat. split; [lia|]. rewrite Nat.add_0_r.
      apply while_false. unfold bind, Load, ret. now rewrite Hr, Hk.
Qed.

(** [TXE] reads clear on [fuel] successive register accesses from [t] on. *)
Lemma uart_putchar_outcome device fuel c s :
  (uart_putchar device fuel c s = OutOfFuel /\
   forall j, (j < fuel)%nat ->
     Z.testbit (device (clock s + j)%nat USART2_ISR) 7 = false) \/
  (exists s',
     uart_putchar device fuel c s = Done tt s' /\ (clock s <= clock s')%nat).
Proof.
  unfold uart_putchar, spin.
  destruct (poll_outcome device USART2_ISR
              (fun isr => negb (truthy (Z.land isr (Z.shiftl 1 7))))
              eq_refl fuel s)
    as [[E Hbusy]|(d & Hd & E)].
  - left. split; [now apply bind_OutOfFuel|].
    intros j Hj. specialize (Hbusy j Hj). rewrite keep_txe in Hbusy.
    now destruct (Z.testbit (device (clock s + j)%nat USART2_ISR) 7).
  - right. rewrite (bind_Done _ _ s tt _ E). eexists. split; [reflexivity|].
    cbn [clock]. lia.
Qed.

Lemma while_starved {L} F (cond : L -> M bool) body (l : L) s s1 :
  cond l s = Done true s1 -> body l s1 = OutOfFuel ->
  while (S F) cond body l s = OutOfFuel.
Proof. intros Hc Hb. simpl. unfold bind. now rewrite Hc, Hb. Qed.

Lemma drain_outcome device fuel (done : list ascii) (pad : cells) :
  Z.of_nat (length done) <= INT_MAX ->
  forall j F s,
    (j <= length done)%nat -> (j < F)%nat ->
    (while F (fun i => ret (0 <? i))
           (drain_step device fuel (map Some done ++ pad)) (Z.of_nat j) s
     = OutOfFuel /\
     exists t, (clock s <= t)%nat /\
       forall k, (k < fuel)%nat ->
         Z.testbit (device (t + k)%nat USART2_ISR) 7 = false) \/
    (exists i s',
       while F (fun i => ret (0 <? i))
             (drain_step device fuel (map Some done ++ pad)) (Z.of_nat j) s
       = Done i s').
Proof.
  intros Hmax. unfold INT_MAX in Hmax.
  induction j as [|j IH]; intros F s Hj HF.
  - destruct F as [|F]; [lia|].
    right. exists 0, s. now apply while_false.
  - destruct F as [|F]; [lia|].
    assert (Hcond : ret (A:=bool) (0 <? Z.of_nat (S j)) s = Done true s).
    { unfold ret. now destruct (Z.ltb_spec 0 (Z.of_nat (S j))); [|lia]. }
    assert (Hpre :
               drain_step device fuel (map Some done ++ pad) (Z.of_nat (S j)) s
               = (uart_putchar device fuel (nth j done "000"%char) ;;
                  ret (Z.of_nat j)) s).
    { unfold drain_step, int_sub.
      replace (Z.of_nat (S j) - 1) with (Z.of_nat j) by lia.
      rewrite (bind_Done _ _ s (Z.of_nat j) s)
        by (apply checked_ok; unfold in_int, INT_MIN, INT_MAX; lia).
      rewrite (bind_Done _ _ s (nth j done "000"%char) s); [reflexivity|].
      unfold buf_load, in_bounds. rewrite length_app, length_map.
      destruct (Z.leb_spec 0 (Z.of_nat j)); [|lia].
      destruct (Z.ltb_spec (Z.of_nat j)
                  (Z.of_nat (length done + length pad))); [|lia].
      cbv [andb]. rewrite Nat2Z.id.
      now rewrite (nth_cells done pad "000"%char j ltac:(lia)). }
    destruct (uart_putchar_outcome device fuel (nth j done "000"%char) s)
      as [[E Hbusy]|(s' & E & Hclock)].
    + left. split.
      * apply (while_starved F _ _ (Z.of_nat (S j)) s s Hcond).
        rewrite Hpre. now apply bind_OutOfFuel.
      * exists (clock s). split; [lia | exact Hbusy].
    + assert (Hstep : drain_step device fuel (map Some done ++ pad)
                        (Z.of_nat (S j)) s = Done (Z.of_nat j) s').
      { rewrite Hpre. now rewrite (bind_Done _ _ s tt s' E). }
      rewrite (while_true F _ _ (Z.of_nat (S j)) (Z.of_nat j) s s s'
                 Hcond Hstep).
      destruct (IH F s' ltac:(lia) ltac:(lia))
        as [[D (t & Ht & Hbusy)]|D]; [|now right].
      left. split; [exact D|]. exists t. split; [lia | exact Hbusy].
Qed.

Lemma putnum_digits_outcome device fuel num s :
  (12 <= fuel)%nat ->
  0 < num <= INT_MAX ->
  (('(_, i, buf) <- putnum_fill fuel (num, 0, uninit 12) ;;
    _ <- putnum_drain device fuel buf i ;; ret tt) s = OutOfFuel /\
   exists t, (clock s <= t)%nat /\
     forall k, (k < fuel)%nat ->
       Z.testbit (device (t + k)%nat USART2_ISR) 7 = false) \/
  exists s',
    ('(_, i, buf) <- putnum_fill fuel (num, 0, uninit 12) ;;
     _ <- putnum_drain device fuel buf i ;; ret tt) s = Done tt s'.
Proof.
  intros Hfuel Hnum.
  pose proof (fill_run 10 fuel num [] s) as Hfill.
  change (map Some [] ++ repeat None (12 - length (@nil ascii)))
    with (uninit 12) in Hfill.
  change (Z.of_nat (length (@nil ascii))) with 0 in Hfill.
  rewrite !app_nil_l in Hfill.
  assert (Hlen := lsd_length 10 num).
  set (ds := map digit_char (lsd 10 num)) in *.
  assert (Hds : (length ds <= 10)%nat) by (unfold ds; now rewrite length_map).
  rewrite (bind_Done _ _ s _ s
             (Hfill ltac:(unfold INT_MAX in *; simpl; lia) ltac:(lia)
                    ltac:(lia) ltac:(simpl; lia))).
  cbv beta iota. unfold putnum_drain.
  destruct (drain_outcome device fuel ds (repeat None (12 - length ds))
              ltac:(unfold INT_MAX; lia) (length ds) fuel s
              ltac:(lia) ltac:(lia))
    as [[D Hbusy]|(i & s' & D)].
  - left. split; [now apply bind_OutOfFuel | exact Hbusy].
  - right. exists s'. now rewrite (bind_Done _ _ s i s' D).
Qed.

(** X16: on every board and for every [int] argument, [uart_putnum] never
    indexes [buf] outside its twelve cells and never reads a cell it has not
    written.  Followed with a budget of at least twelve steps per loop, it
    ends in one of three ways only: it is stuck in a transmit wait, the
    transmitter having read not-ready on every poll of that wait; or it
    returns; or, at [INT_MIN] and there only, the negation overflows. *)
Theorem uart_putnum_outcomes device fuel n s :
  (12 <= fuel)%nat ->
  INT_MIN <= n <= INT_MAX ->
  (uart_putnum device fuel n s = OutOfFuel /\
   exists t, (clock s <= t)%nat /\
     forall k, (k < fuel)%nat ->
       Z.testbit (device (t + k)%nat USART2_ISR) 7 = false) \/
  (exists s', uart_putnum device fuel n s = Done tt s') \/
  (n = INT_MIN /\
   exists s', uart_putnum device fuel n s = Fault SignedOverflow s').
Proof.
  intros Hfuel Hn. unfold uart_putnum.
  destruct (Z.eqb_spec n 0) as [->|Hnz].
  - destruct (uart_putchar_outcome device fuel "0"%char s)
      as [[E Hbusy]|(s' & E & _)].
    + left. split; [exact E|]. exists (clock s). split; [lia | exact Hbusy].
    + right. left. now exists s'.
  - destruct (Z.ltb_spec n 0) as [Hneg|Hpos].
    + destruct (uart_putchar_outcome device fuel "-"%char s)
        as [[E Hbusy]|(s1 & E & Hclock)].
      * left. split.
        -- rewrite bind_assoc. now apply bind_OutOfFuel.
        -- exists (clock s). split; [lia | exact Hbusy].
      * rewrite bind_assoc. rewrite (bind_Done _ _ s tt s1 E).
        unfold int_neg.
        destruct (Z.eq_dec n INT_MIN) as [->|Hne].
        -- right. right. split; [reflexivity|]. exists s1. reflexivity.
        -- rewrite (bind_Done _ _ s1 (- n) s1)
             by (apply checked_ok; unfold in_int, INT_MIN, INT_MAX in *; lia).
           destruct (putnum_digits_outcome device fuel (- n) s1 Hfuel
                       ltac:(unfold INT_MIN, INT_MAX in *; lia))
             as [[D (t & Ht & Hbusy)]|D].
           ++ left. split; [exact D|]. exists t. split; [lia | exact Hbusy].
           ++ right. now left.
    + rewrite (bind_Done _ _ s n s) by reflexivity.
      destruct (putnum_digits_outcome device fuel n s Hfuel ltac:(lia))
        as [D|D]; [now left | right; now left].
Qed.

(** ** Clock and serial configuration *)

Lemma set_bit_kept old v i :
  0 <= i < 32 -> Z.testbit old i = true ->
  Z.testbit (to_unsigned (Z.lor old (to_unsigned v))) i = true.
Proof.
  intros Hi Hold. rewrite to_unsigned_bit, Z.lor_spec, Hold by lia.
  reflexivity.
Qed.

Lemma init_clocks_effect device s :
  exists s',
    init_clocks device s = Done tt s' /\
    Z.testbit (regs s' RCC_AHBENR) 17 = true /\
    Z.testbit (regs s' RCC_AHBENR) 18 = true /\
    Z.testbit (regs s' RCC_APB2ENR) 9 = true /\
    Z.testbit (regs s' RCC_APB1ENR) 17 = true /\
    (forall r i, 0 <= i < 32 ->
       Z.testbit (regs s r) i = true -> Z.testbit (regs s' r) i = true) /\
    tx s' = tx s /\
    forall r, r <> RCC_AHBENR -> r <> RCC_APB2ENR -> r <> RCC_APB1ENR ->
              regs s' r = regs s r.
Proof.
  eexists. split.
  - unfold init_clocks. do 2 latch_step.
    rewrite set_bits_run by reflexivity. cbn [regs tx clock]. upd_simpl.
    reflexivity.
  - cbn [regs tx clock]. upd_simpl.
    assert (Hset : forall old v i,
               0 <= i < 32 -> Z.testbit (to_unsigned v) i = true ->
               Z.testbit (to_unsigned (Z.lor old (to_unsigned v))) i = true).
    { intros old v i Hi Hv. rewrite to_unsigned_bit, Z.lor_spec, Hv by lia.
      apply orb_true_r. }
    split; [apply Hset; [lia | reflexivity]|].
    split; [apply Hset; [lia | reflexivity]|].
    split; [apply Hset; [lia | reflexivity]|].
    split; [apply Hset; [lia | reflexivity]|].
    split; [|split; [reflexivity|]].
    + intros r i Hi Hold.
      destruct (reg_eq_dec r RCC_APB1ENR) as [->|N1];
        [upd_simpl; now apply set_bit_kept|].
      destruct (reg_eq_dec r RCC_APB2ENR) as [->|N2];
        [upd_simpl; now apply set_bit_kept|].
      destruct (reg_eq_dec r RCC_AHBENR) as [->|N3];
        [upd_simpl; now apply set_bit_kept|].
      now rewrite !upd_other by congruence.
    + intros r H1 H2 H3. now rewrite !upd_other by congruence.
Qed.

(** X20: [init_clocks] switches on the clocks of GPIOA, GPIOB, the ADC and
    USART2 and switches nothing off: every enable bit that was set in any
    register before is still set after.  Nothing is transmitted and only the
    three clock-enable registers are written. *)
Theorem init_clocks_only_enables device s :
  exists s',
    init_clocks device s = Done tt s' /\
    Z.testbit (regs s' RCC_AHBENR) 17 = true /\
    Z.testbit (regs s' RCC_AHBENR) 18 = true /\
    Z.testbit (regs s' RCC_APB2ENR) 9 = true /\
    Z.testbit (regs s' RCC_APB1ENR) 17 = true /\
    (forall r i, 0 <= i < 32 ->
       Z.testbit (regs s r) i = true -> Z.testbit (regs s' r) i = true) /\
    tx s' = tx s /\
    forall r, r <> RCC_AHBENR -> r <> RCC_APB2ENR -> r <> RCC_APB1ENR ->
              regs s' r = regs s r.
Proof. exact (init_clocks_effect device s). Qed.

Lemma init_usart_effect device s :
  exists s',
    init_usart device s = Done tt s' /\
    regs s' USART2_BRR = 69 /\
    (forall i, 0 <= i < 32 ->
       Z.testbit (regs s' USART2_CR1) i
       = if (i =? 0) || (i =? 2) || (i =? 3) then true
         else Z.testbit (regs s USART2_CR1) i) /\
    tx s' = tx s /\
    forall r, r <> USART2_BRR -> r <> USART2_CR1 -> regs s' r = regs s r.
Proof.
  eexists. split.
  - unfold init_usart.
    rewrite (bind_Done (Store USART2_BRR 69) _ s tt _ eq_refl).
    cbn [regs tx clock].
    rewrite set_bits_run by reflexivity. cbn [regs tx clock]. upd_simpl.
    reflexivity.
  - cbn [regs tx clock]. upd_simpl.
    split; [reflexivity|]. split; [|split; [reflexivity|]].
    + intros i Hi. rewrite to_unsigned_bit, Z.lor_spec by lia.
      generalize (Z.testbit (regs s USART2_CR1) i). intros b.
      assert (i = 0 \/ i = 1 \/ i = 2 \/ i = 3 \/ 4 <= i < 32) as H by lia.
      repeat (destruct H as [H|H]); try subst i;
        try (destruct b; reflexivity).
      replace (Z.testbit (to_unsigned
                 (Z.lor (Z.lor (Z.shiftl 1 0) (Z.shiftl 1 3)) (Z.shiftl 1 2))) i)
        with false
        by (symmetry; apply Z.bits_above_log2; [discriminate | simpl; lia]).
      destruct (Z.eqb_spec i 0); [lia|]. destruct (Z.eqb_spec i 2); [lia|].
      destruct (Z.eqb_spec i 3); [lia|]. now rewrite orb_false_r.
    + intros r H1 H2. now rewrite !upd_other by congruence.
Qed.

(** X21: [init_usart] overwrites the baud-rate register with 69 whatever it
    held, and in the control register sets UE, RE and TE (bits 0, 2, 3)
    leaving every other bit as it was.  Nothing is transmitted and no other
    register is written. *)
Theorem init_usart_configures device s :
  exists s',
    init_usart device s = Done tt s' /\
    regs s' USART2_BRR = 69 /\
    (forall i, 0 <= i < 32 ->
       Z.testbit (regs s' USART2_CR1) i
       = if (i =? 0) || (i =? 2) || (i =? 3) then true
         else Z.testbit (regs s USART2_CR1) i) /\
    tx s' = tx s /\
    forall r, r <> USART2_BRR -> r <> USART2_CR1 -> regs s' r = regs s r.
Proof. exact (init_usart_effect device s). Qed.

(** * The further properties hold on concrete boards *)

Lemma uart_putchar_waits_for_txe_witness :
  exists s',
    uart_putchar (slow_device 0 0) 12 "A"%char reset_state = Done tt s' /\
    tx s' = tx reset_state ++ ["A"%char] /\
    clock s' = (clock reset_state + 2 + 2)%nat /\
    regs s' USART2_TDR = char_code "A"%char /\
    forall r, r <> USART2_TDR -> regs s' r = regs reset_state r.
Proof.
  apply (uart_putchar_waits_for_txe (slow_device 0 0) 12 "A"%char 2 reset_state).
  - lia.
  - intros j Hj. destruct j as [|[|j]]; [reflexivity | reflexivity | lia].
  - reflexivity.
Defined.

Lemma uart_putchar_hangs_without_txe_witness :
  (forall c, uart_putchar dead_device 12 c reset_state = OutOfFuel) /\
  (forall c str, truthy (char_code c) = true ->
     uart_puts dead_device 12 (String c str) reset_state = OutOfFuel) /\
  (forall moisture temp ph rain water_level,
     send_json dead_device 12 moisture temp ph rain water_level reset_state
     = OutOfFuel).
Proof.
  apply (uart_putchar_hangs_without_txe dead_device).
  intros t. reflexivity.
Defined.

Lemma read_adc_waits_for_eoc_witness :
  exists s',
    read_adc (slow_device 2048 0) 12 1 reset_state
    = Done (to_int (slow_device 2048 0 (4 + clock reset_state + 2) ADC_DR)) s' /\
    regs s' ADC_CHSELR = 2 ^ 1 /\
    Z.testbit (regs s' ADC_CR) 2 = true /\
    tx s' = tx reset_state /\
    clock s' = (5 + clock reset_state + 2)%nat /\
    forall r, r <> ADC_CHSELR -> r <> ADC_CR -> regs s' r = regs reset_state r.
Proof.
  apply (read_adc_waits_for_eoc (slow_device 2048 0) 12 1 2 reset_state).
  - lia.
  - lia.
  - intros j Hj. destruct j as [|[|j]]; [reflexivity | reflexivity | lia].
  - reflexivity.
Defined.

Lemma read_adc_hangs_without_eoc_witness :
  read_adc dead_device 12 0 reset_state = OutOfFuel /\
  loop_body dead_device 12 reset_state = OutOfFuel.
Proof.
  apply (read_adc_hangs_without_eoc dead_device).
  intros t. reflexivity.
Defined.

Lemma init_adc_hangs_without_calibration_witness :
  init_adc calibrating_device 12 reset_state = OutOfFuel /\
  startup calibrating_device 12 reset_state = OutOfFuel /\
  main calibrating_device 12 3 reset_state = OutOfFuel.
Proof.
  apply (init_adc_hangs_without_calibration calibrating_device).
  intros t. reflexivity.
Defined.

Lemma delay_ms_no_effect_witness :
  delay_ms (-5) reset_state = Done tt reset_state.
Proof.
  apply (delay_ms_no_effect (-5) reset_state). unfold INT_MIN, INT_MAX. lia.
Defined.

Lemma moisture_percent_defined_range_witness :
  (-21474836 <= -1 <= 21474836 ->
     moisture_percent (-1) reset_state
     = Done (Z.quot (-1 * 100) 4095) reset_state) /\
  (-40 <= -1 <= 40 -> moisture_percent (-1) reset_state = Done 0 reset_state) /\
  (-1 < -21474836 \/ 21474836 < -1 ->
     moisture_percent (-1) reset_state = Fault SignedOverflow reset_state).
Proof.
  apply (moisture_percent_defined_range (-1) reset_state).
  unfold INT_MIN, INT_MAX. lia.
Defined.

Lemma uart_puts_app_witness :
  uart_puts (prompt_device 0 0) 12 ("ab" ++ "cd") reset_state
  = (uart_puts (prompt_device 0 0) 12 "ab" ;;
     uart_puts (prompt_device 0 0) 12 "cd") reset_state.
Proof.
  apply (uart_puts_app (prompt_device 0 0) 12 "ab" "cd" reset_state).
  reflexivity.
Defined.

Lemma uart_puts_transmits_witness :
  exists s',
    uart_puts (slow_device 0 0) 12 banner reset_state = Done tt s' /\
    tx s' = tx reset_state ++ c_string banner /\
    forall r, r <> USART2_TDR -> regs s' r = regs reset_state r.
Proof.
  apply (uart_puts_transmits (slow_device 0 0) 12 banner reset_state).
  apply (slow_device_responsive 0 0). lia.
Defined.

Lemma uart_putnum_shape_witness :
  exists s' out,
    uart_putnum (prompt_device 0 0) 12 (-2147483647) reset_state = Done tt s' /\
    tx s' = tx reset_state ++ out /\
    (1 <= length out <= 11)%nat /\
    (0 <= -2147483647 -> forallb is_digit out = true) /\
    (-2147483647 < 0 -> exists ds, out = "-"%char :: ds /\ ds <> [] /\
                                   forallb is_digit ds = true).
Proof.
  apply (uart_putnum_shape (prompt_device 0 0) 12 (-2147483647) reset_state).
  - prompt_board.
  - unfold INT_MIN, INT_MAX. lia.
Defined.

Lemma send_json_transmits_record_witness :
  exists s',
    send_json (prompt_device 0 0) 12 50 (-25) 7 0 INT_MAX reset_state
    = Done tt s' /\
    tx s' = tx reset_state
            ++ list_ascii_of_string (record_text 50 (-25) 7 0 INT_MAX) /\
    forall r, r <> USART2_TDR -> regs s' r = regs reset_state r.
Proof.
  apply (send_json_transmits_record (prompt_device 0 0) 12 50 (-25) 7 0 INT_MAX
           reset_state); unfold INT_MIN, INT_MAX; try lia.
  prompt_board.
Defined.

Lemma send_json_read_back_witness :
  exists s' line,
    send_json (prompt_device 0 0) 12 50 (-25) 7 0 INT_MAX reset_state
    = Done tt s' /\
    tx s' = tx reset_state ++ line /\
    parse_record line = Some (50, -25, 7, 0, INT_MAX).
Proof.
  apply (send_json_read_back (prompt_device 0 0) 12 50 (-25) 7 0 INT_MAX
           reset_state); unfold INT_MIN, INT_MAX; try lia.
  prompt_board.
Defined.

Lemma send_json_one_line_witness :
  exists s' body,
    send_json (prompt_device 0 0) 12 50 (-25) 7 0 INT_MAX reset_state
    = Done tt s' /\
    tx s' = tx reset_state ++ body ++ [CR; LF] /\
    ~ In CR body /\ ~ In LF body.
Proof.
  apply (send_json_one_line (prompt_device 0 0) 12 50 (-25) 7 0 INT_MAX
           reset_state); unfold INT_MIN, INT_MAX; try lia.
  prompt_board.
Defined.

Lemma uart_putnum_roundtrip_witness :
  exists s',
    uart_putnum (slow_device 0 0) 12 (-2147483647) reset_state = Done tt s' /\
    tx s' = tx reset_state ++ list_ascii_of_string (decimal (-2147483647)) /\
    parse_decimal (decimal (-2147483647)) = Some (-2147483647).
Proof.
  apply (uart_putnum_roundtrip (slow_device 0 0) 12 (-2147483647) reset_state).
  - apply slow_device_responsive. lia.
  - unfold INT_MIN, INT_MAX. lia.
Defined.

Lemma uart_putnum_outcomes_witness :
  (12 <= 12)%nat /\ INT_MIN <= -12345 <= INT_MAX /\
  ((uart_putnum fading_device 12 (-12345) reset_state = OutOfFuel /\
    exists t, (clock reset_state <= t)%nat /\
      forall k, (k < 12)%nat ->
        Z.testbit (fading_device (t + k)%nat USART2_ISR) 7 = false) \/
   (exists s', uart_putnum fading_device 12 (-12345) reset_state = Done tt s') \/
   ((-12345) = INT_MIN /\
    exists s',
      uart_putnum fading_device 12 (-12345) reset_state
      = Fault SignedOverflow s')).
Proof.
  split; [lia|]. split; [unfold INT_MIN, INT_MAX; lia|].
  apply (uart_putnum_outcomes fading_device 12 (-12345) reset_state).
  - lia.
  - unfold INT_MIN, INT_MAX. lia.
Defined.

Lemma toggle_led_twice_witness :
  exists s',
    (toggle_led (prompt_device 0 0) ;; toggle_led (prompt_device 0 0))
      reset_state = Done tt s' /\
    (forall r, regs s' r = regs reset_state r) /\
    tx s' = tx reset_state.
Proof.
  apply (toggle_led_twice (prompt_device 0 0) reset_state). simpl. lia.
Defined.

Lemma main_output_grows_witness :
  exists sk sk1 line,
    main (slow_device 2048 16) 12 2 reset_state = Done tt sk /\
    main (slow_device 2048 16) 12 3 reset_state = Done tt sk1 /\
    is_record (slow_device 2048 16) line /\
    tx sk1 = tx sk ++ line.
Proof.
  apply (main_output_grows (slow_device 2048 16) 12 2 reset_state).
  apply slow_device_responsive. lia.
Defined.

(** * Start-up, banner and loop, in order *)

(** ** What start-up leaves behind *)

Lemma init_adc_effect device fuel s :
  responds device fuel ADC_ISR 0 true ->
  responds device fuel ADC_CR 31 false ->
  wp (init_adc device fuel) s
     (fun _ s' =>
        tx s' = tx s /\ Z.testbit (regs s' ADC_CR) 0 = true /\
        forall r, r <> ADC_CR -> regs s' r = regs s r).
Proof.
  intros Hrdy Hcal. unfold init_adc.
  apply wp_bind. eapply wp_of_done; [reflexivity|].
  apply wp_bind. eapply wp_mono.
  { apply (spin_flag device fuel ADC_CR 31 false); [reflexivity | exact Hcal |].
    intros x Hx. change (to_unsigned (Z.shiftl 1 31)) with (Z.shiftl 1 31).
    rewrite truthy_bit by lia. rewrite to_unsigned_bit by lia. exact Hx. }
  intros _ s1 [T1 R1]. cbn [regs tx clock] in T1, R1.
  apply wp_bind. eapply wp_of_done; [reflexivity|].
  eapply wp_mono.
  { apply (spin_flag device fuel ADC_ISR 0 true); [reflexivity | exact Hrdy |].
    intros x Hx. rewrite truthy_bit by lia.
    rewrite to_unsigned_bit by lia. now rewrite Hx. }
  intros _ s2 [T2 R2]. cbn [regs tx clock] in T2, R2.
  destruct (reg_eq_dec ADC_CR USART2_TDR) as [E|_]; [discriminate E|].
  rewrite app_nil_r in T1, T2.
  split; [now rewrite T2, T1|]. split.
  - rewrite (R2 ADC_CR (fun H => H)), upd_same.
    rewrite to_unsigned_bit, Z.lor_spec by lia. apply orb_true_r.
  - intros r Hr. rewrite (R2 r (fun H => H)), upd_other by congruence.
    rewrite (R1 r (fun H => H)), upd_other by congruence. reflexivity.
Qed.

Lemma startup_initialises device fuel s :
  responds device fuel ADC_ISR 0 true ->
  responds device fuel ADC_CR 31 false ->
  wp (startup device fuel) s (fun _ s0 => tx s0 = tx s /\ initialised s0).
Proof.
  intros Hrdy Hcal. unfold startup.
  destruct (init_clocks_effect device s)
    as (s1 & E1 & C17 & C18 & C9 & C17' & _ & T1 & R1).
  destruct (init_gpio_effect device s1)
    as (s2 & E2 & M0 & M1 & M2 & M3 & M4 & M5 & _ & AF & PU & T2 & R2).
  destruct (init_usart_effect device s2) as (s3 & E3 & B & CR1 & T3 & R3).
  apply wp_bind. eapply wp_of_done; [exact E1|].
  apply wp_bind. eapply wp_of_done; [exact E2|].
  apply wp_bind. eapply wp_of_done; [exact E3|].
  apply wp_bind. eapply wp_mono; [now apply init_adc_effect|].
  intros _ s4 (T4 & EN & R4).
  eapply wp_of_done; [apply delay_ms_returns; unfold INT_MAX; lia|].
  split; [now rewrite T4, T3, T2, T1|].
  unfold initialised.
  split; [rewrite R4, R3, R2 by discriminate; exact C17|].
  split; [rewrite R4, R3, R2 by discriminate; exact C18|].
  split; [rewrite R4, R3, R2 by discriminate; exact C9|].
  split; [rewrite R4, R3, R2 by discriminate; exact C17'|].
  split; [rewrite R4, R3 by discriminate; exact M0|].
  split; [rewrite R4, R3 by discriminate; exact M1|].
  split; [rewrite R4, R3 by discriminate; exact M2|].
  split; [rewrite R4, R3 by discriminate; exact M3|].
  split; [rewrite R4, R3 by discriminate; exact M4|].
  split; [rewrite R4, R3 by discriminate; exact M5|].
  split; [rewrite R4, R3 by discriminate; rewrite AF;
          rewrite to_unsigned_bit, Z.lor_spec by lia; apply orb_true_r|].
  split; [rewrite R4, R3 by discriminate; rewrite AF;
          rewrite to_unsigned_bit, Z.lor_spec by lia; apply orb_true_r|].
  split; [rewrite R4, R3 by discriminate; rewrite PU;
          rewrite to_unsigned_bit, Z.lor_spec by lia; apply orb_true_r|].
  split; [rewrite R4 by discriminate; exact B|].
  split; [rewrite R4 by discriminate; rewrite CR1 by lia; reflexivity|].
  split; [rewrite R4 by discriminate; rewrite CR1 by lia; reflexivity|].
  split; [rewrite R4 by discriminate; rewrite CR1 by lia; reflexivity|].
  exact EN.
Qed.

(** ** What each phase reads of the board *)

Section Readings.

Variables d d' : nat -> reg -> Z.
Variable P : reg -> Prop.

Lemma follows_ret {A} (a : A) : follows d d' P (ret a) (ret a).
Proof.
  intros s a' s' H. unfold ret in *. injection H as <- <-.
  split; [lia | reflexivity].
Qed.

Lemma follows_raise {A} e : follows d d' P (@raise A e) (raise e).
Proof. intros s a s' H. discriminate H. Qed.

Lemma follows_bind {A B} (m m' : M A) (f f' : A -> M B) :
  follows d d' P m m' -> (forall a, follows d d' P (f a) (f' a)) ->
  follows d d' P (bind m f) (bind m' f').
Proof.
  intros Hm Hf s b s' H. unfold bind in *.
  destruct (m s) as [a s1| |] eqn:E; try discriminate H.
  destruct (Hm s a s1 E) as [L1 K1]. destruct (Hf a s1 b s' H) as [L2 K2].
  split; [lia|]. intros Hw.
  rewrite K1; [apply K2|]; intros t r Ht Hr; apply Hw; (lia || assumption).
Qed.

Lemma follows_Load r :
  (driven r = true -> P r) -> follows d d' P (Load d r) (Load d' r).
Proof.
  intros Hr s a s' H. unfold Load in *. injection H as <- <-. cbn [clock].
  split; [lia|]. intros Hw.
  destruct (driven r) eqn:E; [|reflexivity].
  rewrite (Hw (clock s) r); [reflexivity | lia | auto].
Qed.

Lemma follows_Store r v : follows d d' P (Store r v) (Store r v).
Proof.
  intros s a s' H. unfold Store in *. injection H as <- <-. cbn [clock].
  split; [lia | reflexivity].
Qed.

Lemma follows_checked z : follows d d' P (checked z) (checked z).
Proof.
  unfold checked. destruct (in_intb z); [apply follows_ret | apply follows_raise].
Qed.

Lemma follows_while {L} (cond cond' : L -> M bool) (body body' : L -> M L) :
  (forall x, follows d d' P (cond x) (cond' x)) ->
  (forall x, follows d d' P (body x) (body' x)) ->
  forall F x, follows d d' P (while F cond body x) (while F cond' body' x).
Proof.
  intros Hc Hb. induction F as [|F IH]; intros x.
  - intros s a s' H. discriminate H.
  - cbn [while]. apply follows_bind; [apply Hc|].
    intros [|]; [|apply follows_ret].
    apply follows_bind; [apply Hb | intros y; apply IH].
Qed.

Lemma follows_for_count (body body' : Z -> M unit) :
  (forall i, follows d d' P (body i) (body' i)) ->
  forall n i, follows d d' P (for_count n i body) (for_count n i body').
Proof.
  intros Hb. induction n as [|n IH]; intros i; cbn [for_count].
  - apply follows_ret.
  - apply follows_bind; [apply Hb | intros _].
    apply follows_bind; [apply follows_checked | intros j; apply IH].
Qed.

Lemma delay_ms_follows ms : follows d d' P (delay_ms ms) (delay_ms ms).
Proof.
  unfold delay_ms, for_lt. apply follows_for_count. intros _.
  apply follows_for_count. intros _. apply follows_ret.
Qed.

Lemma set_bits_follows r v :
  (driven r = true -> P r) -> follows d d' P (set_bits d r v) (set_bits d' r v).
Proof.
  intros Hr. unfold set_bits.
  apply follows_bind; [now apply follows_Load | intros old; apply follows_Store].
Qed.

Lemma mask_bits_follows r v :
  (driven r = true -> P r) ->
  follows d d' P (mask_bits d r v) (mask_bits d' r v).
Proof.
  intros Hr. unfold mask_bits.
  apply follows_bind; [now apply follows_Load | intros old; apply follows_Store].
Qed.

Lemma spin_follows fuel r (keep : Z -> bool) :
  (driven r = true -> P r) ->
  follows d d' P (spin fuel (x <- Load d r ;; ret (keep x)))
                 (spin fuel (x <- Load d' r ;; ret (keep x))).
Proof.
  intros Hr. unfold spin. apply follows_while; intros _; [|apply follows_ret].
  apply follows_bind; [now apply follows_Load | intros x; apply follows_ret].
Qed.

(** Start-up reads the board through the ADC registers alone. *)
Lemma startup_follows fuel :
  (forall r, r <> USART2_ISR -> P r) ->
  follows d d' P (startup d fuel) (startup d' fuel).
Proof.
  intros HP.
  assert (Hr : forall r, r <> USART2_ISR -> driven r = true -> P r)
    by (intros r Hr _; now apply HP).
  unfold startup, init_clocks, init_gpio, init_usart, init_adc.
  repeat match goal with
         | |- follows _ _ _ (bind _ _) _ => apply follows_bind; [|intros _]
         | |- follows _ _ _ (set_bits _ _ _) _ =>
             apply set_bits_follows; apply Hr; discriminate
         | |- follows _ _ _ (mask_bits _ _ _) _ =>
             apply mask_bits_follows; apply Hr; discriminate
         | |- follows _ _ _ (spin _ _) _ =>
             apply spin_follows; apply Hr; discriminate
         | |- follows _ _ _ (Store _ _) _ => apply follows_Store
         | |- follows _ _ _ (delay_ms _) _ => apply delay_ms_follows
         end.
Qed.

(** Transmitting reads the board through the transmitter status alone. *)
Lemma uart_putchar_follows fuel c :
  P USART2_ISR ->
  follows d d' P (uart_putchar d fuel c) (uart_putchar d' fuel c).
Proof.
  intros HP. unfold uart_putchar.
  apply follows_bind; [now apply spin_follows | intros _; apply follows_Store].
Qed.

Lemma uart_puts_follows fuel str :
  P USART2_ISR ->
  follows d d' P (uart_puts d fuel str) (uart_puts d' fuel str).
Proof.
  intros HP. induction str as [|c str IH]; cbn [uart_puts].
  - apply follows_ret.
  - destruct (truthy (char_code c)); [|apply follows_ret].
    apply follows_bind; [now apply uart_putchar_follows | intros _; exact IH].
Qed.

Lemma fill_step_follows x : follows d d' P (fill_step x) (fill_step x).
Proof.
  destruct x as [[num i] buf]. unfold fill_step, int_rem, int_add, int_div,
    buf_store.
  change (10 =? 0) with false. cbv iota.
  apply follows_bind.
  { apply follows_bind; [apply follows_checked | intros _; apply follows_ret]. }
  intros dg. apply follows_bind; [apply follows_checked | intros c].
  apply follows_bind.
  { destruct (in_bounds buf i); [apply follows_ret | apply follows_raise]. }
  intros buf'. apply follows_bind; [apply follows_checked | intros i'].
  apply follows_bind; [apply follows_checked | intros num'; apply follows_ret].
Qed.

Lemma drain_step_follows fuel buf i :
  P USART2_ISR ->
  follows d d' P (drain_step d fuel buf i) (drain_step d' fuel buf i).
Proof.
  intros HP. unfold drain_step, int_sub, buf_load.
  apply follows_bind; [apply follows_checked | intros i'].
  apply follows_bind.
  { destruct (in_bounds buf i'); [|apply follows_raise].
    destruct (nth (Z.to_nat i') buf None);
      [apply follows_ret | apply follows_raise]. }
  intros c. apply follows_bind;
    [now apply uart_putchar_follows | intros _; apply follows_ret].
Qed.

Lemma uart_putnum_follows fuel n :
  P USART2_ISR ->
  follows d d' P (uart_putnum d fuel n) (uart_putnum d' fuel n).
Proof.
  intros HP. unfold uart_putnum. cbv zeta.
  destruct (n =? 0); [now apply uart_putchar_follows|].
  apply follows_bind.
  { destruct (n <? 0); [|apply follows_ret].
    apply follows_bind; [now apply uart_putchar_follows | intros _].
    apply follows_checked. }
  intros m. apply follows_bind.
  { unfold putnum_fill. apply follows_while; [|apply fill_step_follows].
    intros [[num i] buf]. apply follows_ret. }
  intros [[num i] buf]. apply follows_bind; [|intros _; apply follows_ret].
  unfold putnum_drain. apply follows_while;
    [intros j; apply follows_ret | intros j; now apply drain_step_follows].
Qed.

Lemma send_json_follows fuel m t p r w :
  P USART2_ISR ->
  follows d d' P (send_json d fuel m t p r w) (send_json d' fuel m t p r w).
Proof.
  intros HP. unfold send_json.
  repeat match goal with
         | |- follows _ _ _ (bind _ _) _ => apply follows_bind; [|intros _]
         | |- follows _ _ _ (uart_puts _ _ _) _ => now apply uart_puts_follows
         | |- follows _ _ _ (uart_putnum _ _ _) _ =>
             now apply uart_putnum_follows
         end.
Qed.

(** A pass of the loop may read any register. *)
Lemma read_adc_follows fuel ch :
  (forall r, P r) ->
  follows d d' P (read_adc d fuel ch) (read_adc d' fuel ch).
Proof.
  intros HP. unfold read_adc.
  apply follows_bind; [apply follows_Store | intros _].
  apply follows_bind; [apply set_bits_follows; auto | intros _].
  apply follows_bind; [apply spin_follows; auto | intros _].
  apply follows_bind; [apply follows_Load; auto | intros dr; apply follows_ret].
Qed.

Lemma loop_body_follows fuel :
  (forall r, P r) ->
  follows d d' P (loop_body d fuel) (loop_body d' fuel).
Proof.
  intros HP. unfold loop_body. cbv zeta.
  apply follows_bind; [now apply read_adc_follows | intros raw].
  apply follows_bind; [now apply read_adc_follows | intros ph_raw].
  apply follows_bind.
  { unfold read_rain.
    apply follows_bind; [apply follows_Load; auto | intros x; apply follows_ret]. }
  intros rain. apply follows_bind.
  { unfold moisture_percent, int_mul, int_div.
    apply follows_bind; [apply follows_checked | intros scaled].
    change (4095 =? 0) with false. cbv iota. apply follows_checked. }
  intros pct. apply follows_bind; [apply send_json_follows; auto | intros _].
  apply follows_bind; [|intros _; apply delay_ms_follows].
  unfold toggle_led.
  apply follows_bind; [apply follows_Load; auto | intros x; apply follows_Store].
Qed.

Lemma iterations_follows fuel k :
  (forall r, P r) ->
  follows d d' P (iterations d fuel k) (iterations d' fuel k).
Proof.
  intros HP. induction k as [|k IH]; cbn [iterations].
  - apply follows_ret.
  - apply follows_bind; [now apply loop_body_follows | intros _; exact IH].
Qed.

End Readings.

(** ** The banner between start-up and the loop *)

(** C8: [main] first runs start-up to its end, which transmits nothing and
    leaves the peripherals configured (state [s0]); it is from that state that
    the banner is transmitted, changing no register but the transmit data
    register (state [s1], where [main] followed up to the loop stands); and it
    is from that state that the loop is entered, each completed pass adding one
    record.  [main] ends where this chain ends, so the banner stands first in
    its output and occurs in it exactly once.  The order shows in what [main]
    reads of the board: it ends in the same state on any board that differs
    only in the transmitter status presented before start-up has ended, or in
    the other registers presented while the banner goes out, so no character
    is attempted during start-up and no conversion before the banner is
    out. *)
Theorem banner_once device fuel k s :
  responsive_board device fuel ->
  exists s0 s1 s' lines,
    startup device fuel s = Done tt s0 /\
    tx s0 = tx s /\ initialised s0 /\
    uart_puts device fuel banner s0 = Done tt s1 /\
    tx s1 = tx s0 ++ list_ascii_of_string banner /\
    (forall r, r <> USART2_TDR -> regs s1 r = regs s0 r) /\
    iterations device fuel k s1 = Done tt s' /\
    length lines = k /\ Forall (is_record device) lines /\
    tx s' = tx s1 ++ List.concat lines /\
    main device fuel 0 s = Done tt s1 /\
    main device fuel k s = Done tt s' /\
    tx s' = tx s ++ list_ascii_of_string banner ++ List.concat lines /\
    occurrences (list_ascii_of_string banner)
                (list_ascii_of_string banner ++ List.concat lines) = 1%nat /\
    (clock s <= clock s0 <= clock s1)%nat /\ (clock s1 <= clock s')%nat /\
    forall device',
      (forall t r, (t < clock s0)%nat -> r <> USART2_ISR ->
                   device' t r = device t r) ->
      (forall t, (clock s0 <= t < clock s1)%nat ->
                 device' t USART2_ISR = device t USART2_ISR) ->
      (forall t r, (clock s1 <= t)%nat -> device' t r = device t r) ->
      main device' fuel k s = Done tt s'.
Proof.
  intros (Htxe & Heoc & Hrdy & Hcal & Hadc & Hfuel).
  destruct (wp_done _ _ _ (startup_initialises device fuel s Hrdy Hcal))
    as ([] & s0 & E0 & T0 & I0).
  destruct (wp_done _ _ _ (uart_puts_sends device fuel Htxe banner s0))
    as ([] & s1 & E1 & T1 & R1).
  destruct (wp_done _ _ _ (iterations_spec device fuel Htxe Hfuel Heoc Hadc k s1))
    as ([] & s' & E2 & (lines & Hlen & Hrec & T2) & _).
  exists s0, s1, s', lines.
  split; [exact E0|]. split; [exact T0|]. split; [exact I0|].
  split; [exact E1|]. split; [exact T1|].
  split; [intros r Hr; apply R1; intros [H|[]]; now apply Hr|].
  split; [exact E2|]. split; [exact Hlen|]. split; [exact Hrec|].
  split; [exact T2|].
  split; [unfold main; rewrite (bind_Done _ _ s tt s0 E0);
          rewrite (bind_Done _ _ s0 tt s1 E1); reflexivity|].
  split; [unfold main; rewrite (bind_Done _ _ s tt s0 E0);
          rewrite (bind_Done _ _ s0 tt s1 E1); exact E2|].
  split; [rewrite T2, T1, T0, <- app_assoc; reflexivity|].
  split; [apply banner_occurs_once; now apply (records_no_S device)|].
  assert (F0 : forall device',
             follows device device' (fun r => r <> USART2_ISR)
                     (startup device fuel) (startup device' fuel))
    by (intros device'; apply startup_follows; auto).
  assert (F1 : forall device',
             follows device device' (fun r => r = USART2_ISR)
                     (uart_puts device fuel banner) (uart_puts device' fuel banner))
    by (intros device'; now apply uart_puts_follows).
  assert (F2 : forall device',
             follows device device' (fun _ => True)
                     (iterations device fuel k) (iterations device' fuel k))
    by (intros device'; now apply iterations_follows).
  destruct (F0 device s tt s0 E0) as [L0 _].
  destruct (F1 device s0 tt s1 E1) as [L1 _].
  destruct (F2 device s1 tt s' E2) as [L2 _].
  split; [lia|]. split; [exact L2|].
  intros device' H0 H1 H2. unfold main.
  rewrite (bind_Done _ _ s tt s0).
  2:{ apply (F0 device' s tt s0 E0). intros t r Ht Hr. apply H0; [lia | exact Hr]. }
  rewrite (bind_Done _ _ s0 tt s1).
  2:{ apply (F1 device' s0 tt s1 E1). intros t r Ht ->. now apply H1. }
  apply (F2 device' s1 tt s' E2). intros t r Ht _. apply H2. lia.
Qed.

Lemma banner_once_witness :
  responsive_board (slow_device 2048 16) 12 /\
  exists s0 s1 s' lines,
    startup (slow_device 2048 16) 12 reset_state = Done tt s0 /\
    tx s0 = tx reset_state /\ initialised s0 /\
    uart_puts (slow_device 2048 16) 12 banner s0 = Done tt s1 /\
    tx s1 = tx s0 ++ list_ascii_of_string banner /\
    (forall r, r <> USART2_TDR -> regs s1 r = regs s0 r) /\
    iterations (slow_device 2048 16) 12 2 s1 = Done tt s' /\
    length lines = 2%nat /\ Forall (is_record (slow_device 2048 16)) lines /\
    tx s' = tx s1 ++ List.concat lines /\
    main (slow_device 2048 16) 12 0 reset_state = Done tt s1 /\
    main (slow_device 2048 16) 12 2 reset_state = Done tt s' /\
    tx s' = tx reset_state ++ list_ascii_of_string banner ++ List.concat lines /\
    occurrences (list_ascii_of_string banner)
                (list_ascii_of_string banner ++ List.concat lines) = 1%nat /\
    (clock reset_state <= clock s0 <= clock s1)%nat /\
    (clock s1 <= clock s')%nat /\
    forall device',
      (forall t r, (t < clock s0)%nat -> r <> USART2_ISR ->
                   device' t r = slow_device 2048 16 t r) ->
      (forall t, (clock s0 <= t < clock s1)%nat ->
                 device' t USART2_ISR = slow_device 2048 16 t USART2_ISR) ->
      (forall t r, (clock s1 <= t)%nat -> device' t r = slow_device 2048 16 t r) ->
      main device' 12 2 reset_state = Done tt s'.
Proof.
  split; [apply slow_device_responsive; lia|].
  apply (banner_once (slow_device 2048 16) 12 2 reset_state).
  apply slow_device_responsive. lia.
Defined.
